(** * WebSafe popup: the analysis workflow of [popup.js]

    A shallow embedding of the class [WebSafeUI] of
    [extension/build/chromeextension/popup.js] and the properties of its
    validate / analyze / render cycle.

    - JavaScript strings are sequences of UTF-16 code units ([jsstr]).
    - JavaScript numbers are IEEE 754 binary64 values ([float]).
    - The popup's DOM, the dialogs it opened, the console, the requests it
      sent and the timers it armed form the record [UI]; the methods of the
      class are computations of the monad [M] over it, which also carries
      JavaScript exceptions and the history of the pages gone through.
    - A method is run from its call to its completion; what [fetch], the
      tab query and the storage hand back is given to it.
      [handleAnalyze_during] adds the events the page handles while
      [handleAnalyze] is suspended at an [await].

    The theme, preference and status methods work on the record [Chrome];
    the clipboard and the tab query hand their results to the methods that
    use them. Their properties close the file. *)

From Stdlib Require Import List ZArith NArith Bool String Ascii Lia.
From Stdlib Require Import Floats.PrimFloat Floats.FloatOps Floats.SpecFloat.
From Stdlib Require Import Floats.FloatAxioms.
From Stdlib Require Import Numbers.Cyclic.Int63.Uint63.
Import ListNotations.

Set Warnings "-register-all".

(* ===================================================================== *)
(** * Strings *)
(* ===================================================================== *)

(** A UTF-16 code unit, and a JavaScript string. *)
Definition code_unit := N.
Definition jsstr := list code_unit.

(** An ASCII literal as a JavaScript string. *)
Definition js (s : string) : jsstr := map N_of_ascii (list_ascii_of_string s).

Fixpoint jsstr_eqb (a b : jsstr) : bool :=
  match a, b with
  | [], [] => true
  | x :: a', y :: b' => (x =? y)%N && jsstr_eqb a' b'
  | _, _ => false
  end.

(** [!s] for a string: only the empty string is falsy. *)
Definition is_empty (s : jsstr) : bool :=
  match s with [] => true | _ :: _ => false end.

(** ECMAScript WhiteSpace and LineTerminator code points, the ones
    [String.prototype.trim] strips (all of them are single code units). *)
Definition is_white_space (c : code_unit) : bool :=
  existsb (N.eqb c)
    [0x9; 0xA; 0xB; 0xC; 0xD; 0x20; 0xA0; 0x1680; 0x2028; 0x2029; 0x202F;
     0x205F; 0x3000; 0xFEFF]%N
  || ((0x2000 <=? c) && (c <=? 0x200A))%N.

Fixpoint trimStart (s : jsstr) : jsstr :=
  match s with
  | c :: s' => if is_white_space c then trimStart s' else s
  | [] => []
  end.

Definition trimEnd (s : jsstr) : jsstr := rev (trimStart (rev s)).

(** [String.prototype.trim] *)
Definition trim (s : jsstr) : jsstr := trimEnd (trimStart s).

(** Decimal digits of a natural number, most significant first. *)
Fixpoint decimal_digits (fuel : nat) (n : N) (acc : jsstr) : jsstr :=
  match fuel with
  | O => acc
  | S fuel' =>
      let acc' := (0x30 + n mod 10)%N :: acc in
      if (n <? 10)%N then acc' else decimal_digits fuel' (n / 10)%N acc'
  end.

Definition decimal (n : N) : jsstr := decimal_digits (S (N.to_nat (N.log2 n))) n [].

(* ===================================================================== *)
(** * Regular expressions *)
(* ===================================================================== *)

Module Regex.

(** The fragment of the RegExp syntax the popup uses: character classes,
    sequence, alternative and repetition. *)
Inductive t : Type :=
| Void
| Eps
| Class (p : code_unit -> bool)
| Seq (r1 r2 : t)
| Alt (r1 r2 : t)
| Star (r : t).

(** [x?], [x+], one character, a literal. *)
Definition Opt (r : t) : t := Alt r Eps.
Definition Plus (r : t) : t := Seq r (Star r).
Definition Chr (c : ascii) : t := Class (N.eqb (N_of_ascii c)).
Definition Lit (s : string) : t :=
  fold_right (fun a r => Seq (Chr a) r) Eps (list_ascii_of_string s).

(** The strings a pattern matches, read between [^] and [$]. *)
Inductive Matches : t -> jsstr -> Prop :=
| MEps : Matches Eps []
| MClass p c : p c = true -> Matches (Class p) [c]
| MSeq r1 r2 s1 s2 : Matches r1 s1 -> Matches r2 s2 -> Matches (Seq r1 r2) (s1 ++ s2)
| MAltL r1 r2 s : Matches r1 s -> Matches (Alt r1 r2) s
| MAltR r1 r2 s : Matches r2 s -> Matches (Alt r1 r2) s
| MStarNil r : Matches (Star r) []
| MStarCons r s1 s2 : Matches r s1 -> Matches (Star r) s2 -> Matches (Star r) (s1 ++ s2).

Fixpoint nullable (r : t) : bool :=
  match r with
  | Void => false
  | Eps => true
  | Class _ => false
  | Seq r1 r2 => nullable r1 && nullable r2
  | Alt r1 r2 => nullable r1 || nullable r2
  | Star _ => true
  end.

(** The pattern left to match once [c] has been read. *)
Fixpoint deriv (c : code_unit) (r : t) : t :=
  match r with
  | Void => Void
  | Eps => Void
  | Class p => if p c then Eps else Void
  | Seq r1 r2 =>
      if nullable r1
      then Alt (Seq (deriv c r1) r2) (deriv c r2)
      else Seq (deriv c r1) r2
  | Alt r1 r2 => Alt (deriv c r1) (deriv c r2)
  | Star r1 => Seq (deriv c r1) (Star r1)
  end.

(** [RegExp.prototype.test] for a pattern anchored at both ends and without
    flags: whether the whole string matches. *)
Fixpoint test (r : t) (s : jsstr) : bool :=
  match s with
  | [] => nullable r
  | c :: s' => test (deriv c r) s'
  end.

End Regex.

(** The class escape [\w] (no [u] or [i] flag): ASCII letters, digits, [_]. *)
Definition word_char (c : code_unit) : bool :=
  ((0x30 <=? c) && (c <=? 0x39) || (0x41 <=? c) && (c <=? 0x5A)
   || (0x61 <=? c) && (c <=? 0x7A) || (c =? 0x5F))%N.

Definition one_of (s : string) (c : code_unit) : bool :=
  existsb (N.eqb c) (js s).

(** [[\w-]] *)
Definition word_or_dash (c : code_unit) : bool := word_char c || one_of "-" c.

(** [[\w- ./?%&=]]: a class escape cannot bound a range, so the [-] after
    [\w] stands for itself. *)
Definition path_char (c : code_unit) : bool := word_char c || one_of "- ./?%&=" c.

(** The pattern of line 90, piece by piece:
    - [^(https?:\/\/)?]   an optional scheme,
    - [([\w-]+\.)+]       one or more labels, each closed by a dot,
    - [[\w-]+]            a last label,
    - an optional group: a slash, then any number of [[\w- ./?%&=]], up to [$]. *)
Definition URL_PATTERN : Regex.t :=
  let scheme := Regex.Seq (Regex.Lit "http") (Regex.Seq (Regex.Opt (Regex.Chr "s")) (Regex.Lit "://")) in
  let label := Regex.Plus (Regex.Class word_or_dash) in
  let path := Regex.Seq (Regex.Chr "/") (Regex.Star (Regex.Class path_char)) in
  Regex.Seq (Regex.Opt scheme)
    (Regex.Seq (Regex.Plus (Regex.Seq label (Regex.Chr ".")))
       (Regex.Seq label (Regex.Opt path))).

(* ===================================================================== *)
(** * Numbers *)
(* ===================================================================== *)

(** The number whose value is the integer [n] (exact below [2^53]). *)
Definition number_of_N (n : N) : float := of_uint63 (of_Z (Z.of_N n)).

(** [Math.round]: the integer closest to [x], a tie going towards positive
    infinity; [NaN], the infinities and the zeros are returned as they are,
    and a negative [x] that rounds to zero gives [-0].  A finite [x] is
    [m * 2^e] exactly, so the rounding is done on integers. *)
Definition Math_round (x : float) : float :=
  match Prim2SF x with
  | S754_finite sign m e =>
      if (0 <=? e)%Z then x
      else
        let den := (2 ^ (- e))%Z in
        let num := if sign then Z.neg m else Z.pos m in
        let r := ((2 * num + den) / (2 * den))%Z in
        if (r =? 0)%Z then (if sign then neg_zero else zero)
        else if (r <? 0)%Z then (- number_of_N (Z.abs_N r))%float
        else number_of_N (Z.abs_N r)
  | _ => x
  end.

(** The integer a finite number is, when it is one. *)
Definition integer_value (m : positive) (e : Z) : option N :=
  if (0 <=? e)%Z then Some (N.pos m * 2 ^ Z.to_N e)%N
  else
    let den := (2 ^ Z.to_N (- e))%N in
    if (N.pos m mod den =? 0)%N then Some (N.pos m / den)%N else None.

(** A number from zero to ten, as the division of a score by ten gives it:
    a zero, or [m * 2^e] with [e <= -49] and [m <= 10 * 2^(-e)]. *)
Definition at_most_ten (x : spec_float) : Prop :=
  match x with
  | S754_zero _ => True
  | S754_finite false m e => (e <= -49)%Z /\ (Z.pos m <= 10 * 2 ^ (- e))%Z
  | _ => False
  end.

(* ===================================================================== *)
(** * Values, exceptions and coercions *)
(* ===================================================================== *)

(** What [response.json()] can produce, and [undefined]. The properties of an
    object are listed in the order of the text; [JSON.parse] lets the last of
    two equal keys win. *)
Inductive JsValue : Type :=
| JUndefined
| JNull
| JBool (b : bool)
| JNumber (n : float)
| JString (s : jsstr)
| JArray (elements : list JsValue)
| JObject (properties : list (jsstr * JsValue)).

Inductive JsError : Type :=
| TypeError
| SyntaxError
| Error (message : jsstr)
| Rejected (reason : jsstr).

(** How the evaluation of an expression or statement completes. *)
Inductive Outcome (A : Type) : Type :=
| Return (a : A)
| Throw (e : JsError).
Arguments Return {A} a.
Arguments Throw {A} e.

Definition and_then {A B} (o : Outcome A) (k : A -> Outcome B) : Outcome B :=
  match o with
  | Return a => k a
  | Throw e => Throw e
  end.

Fixpoint lookup (key : jsstr) (properties : list (jsstr * JsValue)) : option JsValue :=
  match properties with
  | [] => None
  | (k, v) :: rest =>
      match lookup key rest with
      | Some v' => Some v'
      | None => if jsstr_eqb k key then Some v else None
      end
  end.

(** [v.key] for a key that no built-in prototype defines, as are [score],
    [parameters], [icon], [name], [status] and [autoAnalyze]. *)
Definition Get (v : JsValue) (key : string) : Outcome JsValue :=
  match v with
  | JUndefined | JNull => Throw TypeError
  | JObject properties =>
      match lookup (js key) properties with
      | Some x => Return x
      | None => Return JUndefined
      end
  | _ => Return JUndefined
  end.

(** [a !== b] against the literal [false]. *)
Definition strict_neq_false (v : JsValue) : bool :=
  match v with
  | JBool false => false
  | _ => true
  end.

Definition ascii_upper (c : code_unit) : code_unit :=
  if ((0x61 <=? c) && (c <=? 0x7A))%N then (c - 0x20)%N else c.

Definition charAt0 (s : jsstr) : jsstr := firstn 1 s.
Definition slice1 (s : jsstr) : jsstr := skipn 1 s.

(* ===================================================================== *)
(** * The page and its environment *)
(* ===================================================================== *)

(** A [div] made by [document.createElement] with the two properties the
    popup assigns; [innerHTML] is the markup assigned, not parsed. *)
Record Element : Type := { className : jsstr; innerHTML : jsstr }.

(** The arguments of a [fetch] call. *)
Record Request : Type := {
  req_resource : jsstr;
  req_method : jsstr;
  req_headers : list (jsstr * jsstr);
  req_body : jsstr
}.

(** What a [Response] holds for the popup: its status, and what reading its
    body as text or as JSON completes with. *)
Record Response : Type := {
  resp_status : N;
  resp_text : Outcome jsstr;
  resp_json : Outcome JsValue
}.

(** [response.ok] *)
Definition resp_ok (r : Response) : bool :=
  ((200 <=? resp_status r) && (resp_status r <=? 299))%N.

(** The network: what [fetch] settles with for a request. A request that
    never settles leaves [handleAnalyze] waiting and is not part of the
    model. *)
Definition Network : Type := Request -> Outcome Response.

(** A tab as [chrome.tabs.query] reports it; [url] needs a permission. *)
Record Tab : Type := { tab_url : option jsstr }.

(** The functions the popup hands to [setTimeout]. *)
Inductive Callback : Type := call_handleAnalyze.

Record Timer : Type := { timer_callback : Callback; timer_delay : N }.

Record UI : Type := {
  urlInput_value : jsstr;              (* the text of #urlInput *)
  analyzeBtn_disabled : bool;
  btnText_hidden : bool;               (* .btn-text has class hidden *)
  loader_hidden : bool;                (* #loader has class hidden *)
  resultsSection_hidden : bool;        (* #resultsSection has class hidden *)
  scoreValue_textContent : jsstr;
  progressFill_width : jsstr;          (* progressFill.style.width *)
  parametersList : list Element;       (* children of #parametersList *)
  body_collapsed : bool;               (* body has class popup-collapsed *)
  body_expanded : bool;                (* body has class popup-expanded *)
  alerts : list jsstr;                 (* alert dialogs shown, oldest first *)
  console : list (jsstr * JsError);    (* console.error lines, oldest first *)
  requests : list Request;             (* fetch calls made, oldest first *)
  timers : list Timer                  (* setTimeout calls made, oldest first *)
}.

(** Assignments to one field of the page; [set_loading] is the three
    assignments of a branch of [showLoading] (lines 125-127 and 129-131) and
    [set_body_classes] the two class changes of [expandPopup]. *)
Definition set_urlInput_value v st :=
  Build_UI v (analyzeBtn_disabled st) (btnText_hidden st) (loader_hidden st)
    (resultsSection_hidden st) (scoreValue_textContent st) (progressFill_width st)
    (parametersList st) (body_collapsed st) (body_expanded st) (alerts st)
    (console st) (requests st) (timers st).
Definition set_analyzeBtn_disabled v st :=
  Build_UI (urlInput_value st) v (btnText_hidden st) (loader_hidden st)
    (resultsSection_hidden st) (scoreValue_textContent st) (progressFill_width st)
    (parametersList st) (body_collapsed st) (body_expanded st) (alerts st)
    (console st) (requests st) (timers st).
Definition set_loading (loading : bool) st :=
  Build_UI (urlInput_value st) loading loading (negb loading)
    (resultsSection_hidden st) (scoreValue_textContent st) (progressFill_width st)
    (parametersList st) (body_collapsed st) (body_expanded st) (alerts st)
    (console st) (requests st) (timers st).
Definition set_resultsSection_hidden v st :=
  Build_UI (urlInput_value st) (analyzeBtn_disabled st) (btnText_hidden st) (loader_hidden st)
    v (scoreValue_textContent st) (progressFill_width st)
    (parametersList st) (body_collapsed st) (body_expanded st) (alerts st)
    (console st) (requests st) (timers st).
Definition set_scoreValue_textContent v st :=
  Build_UI (urlInput_value st) (analyzeBtn_disabled st) (btnText_hidden st) (loader_hidden st)
    (resultsSection_hidden st) v (progressFill_width st)
    (parametersList st) (body_collapsed st) (body_expanded st) (alerts st)
    (console st) (requests st) (timers st).
Definition set_progressFill_width v st :=
  Build_UI (urlInput_value st) (analyzeBtn_disabled st) (btnText_hidden st) (loader_hidden st)
    (resultsSection_hidden st) (scoreValue_textContent st) v
    (parametersList st) (body_collapsed st) (body_expanded st) (alerts st)
    (console st) (requests st) (timers st).
Definition set_parametersList v st :=
  Build_UI (urlInput_value st) (analyzeBtn_disabled st) (btnText_hidden st) (loader_hidden st)
    (resultsSection_hidden st) (scoreValue_textContent st) (progressFill_width st)
    v (body_collapsed st) (body_expanded st) (alerts st)
    (console st) (requests st) (timers st).
Definition set_body_classes collapsed expanded st :=
  Build_UI (urlInput_value st) (analyzeBtn_disabled st) (btnText_hidden st) (loader_hidden st)
    (resultsSection_hidden st) (scoreValue_textContent st) (progressFill_width st)
    (parametersList st) collapsed expanded (alerts st)
    (console st) (requests st) (timers st).
Definition set_alerts v st :=
  Build_UI (urlInput_value st) (analyzeBtn_disabled st) (btnText_hidden st) (loader_hidden st)
    (resultsSection_hidden st) (scoreValue_textContent st) (progressFill_width st)
    (parametersList st) (body_collapsed st) (body_expanded st) v
    (console st) (requests st) (timers st).
Definition set_console v st :=
  Build_UI (urlInput_value st) (analyzeBtn_disabled st) (btnText_hidden st) (loader_hidden st)
    (resultsSection_hidden st) (scoreValue_textContent st) (progressFill_width st)
    (parametersList st) (body_collapsed st) (body_expanded st) (alerts st)
    v (requests st) (timers st).
Definition set_requests v st :=
  Build_UI (urlInput_value st) (analyzeBtn_disabled st) (btnText_hidden st) (loader_hidden st)
    (resultsSection_hidden st) (scoreValue_textContent st) (progressFill_width st)
    (parametersList st) (body_collapsed st) (body_expanded st) (alerts st)
    (console st) v (timers st).
Definition set_timers v st :=
  Build_UI (urlInput_value st) (analyzeBtn_disabled st) (btnText_hidden st) (loader_hidden st)
    (resultsSection_hidden st) (scoreValue_textContent st) (progressFill_width st)
    (parametersList st) (body_collapsed st) (body_expanded st) (alerts st)
    (console st) (requests st) v.

(* ===================================================================== *)
(** * The monad of the methods *)
(* ===================================================================== *)

(** The page now, and the states it went through, the latest first. *)
Definition World : Type := (UI * list UI)%type.

Definition now (w : World) : UI := fst w.
Definition earlier (w : World) : list UI := snd w.
Definition start (st : UI) : World := (st, []).

Definition M (A : Type) : Type := World -> Outcome A * World.

Definition ret {A} (a : A) : M A := fun w => (Return a, w).
Definition throw {A} (e : JsError) : M A := fun w => (Throw e, w).
Definition lift {A} (o : Outcome A) : M A := fun w => (o, w).

Definition bind {A B} (m : M A) (k : A -> M B) : M B :=
  fun w =>
    match m w with
    | (Return a, w') => k a w'
    | (Throw e, w') => (Throw e, w')
    end.

Definition gets {A} (f : UI -> A) : M A := fun w => (Return (f (now w)), w).

(** A change of the page; the page left behind is recorded. *)
Definition push (f : UI -> UI) (w : World) : World := (f (now w), now w :: earlier w).

Definition modify (f : UI -> UI) : M unit := fun w => (Return tt, push f w).

(** [try { body } catch (error) { handler }] *)
Definition try_catch {A} (body : M A) (handler : JsError -> M A) : M A :=
  fun w =>
    match body w with
    | (Return a, w') => (Return a, w')
    | (Throw e, w') => handler e w'
    end.

(** [try { body } finally { finalizer }]: the finalizer runs however the
    body completes, and an exception of its own replaces the body's. *)
Definition try_finally {A} (body : M A) (finalizer : M unit) : M A :=
  fun w =>
    let (r, w') := body w in
    match finalizer w' with
    | (Return _, w'') => (r, w'')
    | (Throw e, w'') => (Throw e, w'')
    end.

Notation "x <- m ;; k" := (bind m (fun x => k))
  (at level 61, m at next level, right associativity).
Notation "m ;; k" := (bind m (fun _ => k))
  (at level 61, right associativity).
Notation "'let?' x := o 'in' k" := (and_then o (fun x => k))
  (at level 10, x name, o at level 200, k at level 200).

(* ===================================================================== *)
(** * JSON text and CSS values *)
(* ===================================================================== *)

Definition dquote : jsstr := [0x22%N].
Definition newline : jsstr := [0xA%N].

Definition hex_digit (n : N) : code_unit :=
  if (n <? 10)%N then (0x30 + n)%N else (0x61 + (n - 10))%N.

(** The escape of a code unit: a backslash, [u] and four hexadecimal digits. *)
Definition unicode_escape (c : code_unit) : jsstr :=
  [0x5C; 0x75; hex_digit (c / 4096 mod 16); hex_digit (c / 256 mod 16);
   hex_digit (c / 16 mod 16); hex_digit (c mod 16)]%N.

Definition is_high_surrogate (c : code_unit) : bool := ((0xD800 <=? c) && (c <=? 0xDBFF))%N.
Definition is_low_surrogate (c : code_unit) : bool := ((0xDC00 <=? c) && (c <=? 0xDFFF))%N.

(** One code unit inside a JSON string. *)
Definition escape_unit (c : code_unit) : jsstr :=
  if (c =? 0x08)%N then [0x5C; 0x62]%N
  else if (c =? 0x09)%N then [0x5C; 0x74]%N
  else if (c =? 0x0A)%N then [0x5C; 0x6E]%N
  else if (c =? 0x0C)%N then [0x5C; 0x66]%N
  else if (c =? 0x0D)%N then [0x5C; 0x72]%N
  else if (c =? 0x22)%N then [0x5C; 0x22]%N
  else if (c =? 0x5C)%N then [0x5C; 0x5C]%N
  else if ((c <? 0x20) || is_high_surrogate c || is_low_surrogate c)%N then unicode_escape c
  else [c].

(** The characters of [QuoteJSONString]: a surrogate pair is kept, a lone
    surrogate is escaped. *)
Fixpoint quote_units (s : jsstr) : jsstr :=
  match s with
  | [] => []
  | c :: rest =>
      match rest with
      | d :: rest' =>
          if is_high_surrogate c && is_low_surrogate d
          then c :: d :: quote_units rest'
          else escape_unit c ++ quote_units rest
      | [] => escape_unit c
      end
  end.

Definition QuoteJSONString (s : jsstr) : jsstr := dquote ++ quote_units s ++ dquote.

(** A percentage that is not negative, the values of [width] among the
    strings the popup assigns: a number as CSS writes it, then [%]. *)
Definition CSS_PERCENTAGE : Regex.t :=
  let digits := Regex.Plus (Regex.Class (fun c => (0x30 <=? c) && (c <=? 0x39))%N) in
  let sign := Regex.Alt (Regex.Chr "+") (Regex.Chr "-") in
  let fraction := Regex.Seq (Regex.Chr ".") digits in
  let exponent := Regex.Seq (Regex.Alt (Regex.Chr "e") (Regex.Chr "E")) (Regex.Seq (Regex.Opt sign) digits) in
  Regex.Seq (Regex.Opt (Regex.Chr "+"))
    (Regex.Seq (Regex.Alt (Regex.Seq digits (Regex.Opt fraction)) fraction)
       (Regex.Seq (Regex.Opt exponent) (Regex.Chr "%"))).

(* ===================================================================== *)
(** * The rest of the page: theme, preferences, status *)
(* ===================================================================== *)

(** [ToBoolean] *)
Definition truthy (v : JsValue) : bool :=
  match v with
  | JUndefined | JNull => false
  | JBool b => b
  | JNumber n => negb (PrimFloat.is_nan n || PrimFloat.is_zero n)
  | JString s => negb (is_empty s)
  | JArray _ | JObject _ => true
  end.

(** [v === s] for a string [s]. *)
Definition strict_eq_string (v : JsValue) (s : jsstr) : bool :=
  match v with
  | JString t => jsstr_eqb t s
  | _ => false
  end.

(** What the methods outside the analysis cycle read and write: the
    attribute [data-theme] of the root element ([None] when it has none),
    the text of [.theme-icon], the [checked] state of [#autoAnalyzeToggle]
    and whether [.status-dot] has the class [active] ([None] when the
    element is not in the page), and the items of [chrome.storage.sync]. *)
Record Chrome : Type := {
  data_theme : option jsstr;
  themeIcon_textContent : jsstr;
  autoAnalyzeToggle_checked : option bool;
  statusDot_active : option bool;
  sync_storage : list (jsstr * JsValue)
}.

Definition set_data_theme v c :=
  Build_Chrome v (themeIcon_textContent c) (autoAnalyzeToggle_checked c)
    (statusDot_active c) (sync_storage c).
Definition set_themeIcon_textContent v c :=
  Build_Chrome (data_theme c) v (autoAnalyzeToggle_checked c)
    (statusDot_active c) (sync_storage c).
Definition set_autoAnalyzeToggle_checked v c :=
  Build_Chrome (data_theme c) (themeIcon_textContent c) v
    (statusDot_active c) (sync_storage c).
Definition set_statusDot_active v c :=
  Build_Chrome (data_theme c) (themeIcon_textContent c) (autoAnalyzeToggle_checked c)
    v (sync_storage c).
Definition set_sync_storage v c :=
  Build_Chrome (data_theme c) (themeIcon_textContent c) (autoAnalyzeToggle_checked c)
    (statusDot_active c) v.

(** [chrome.storage.sync.set({ key: value })]: the item replaces the one
    stored under [key], the others stay. The write is taken as done when
    the call returns. *)
Definition chrome_storage_sync_set (key : jsstr) (value : JsValue)
    (storage : list (jsstr * JsValue)) : list (jsstr * JsValue) :=
  filter (fun item => negb (jsstr_eqb (fst item) key)) storage ++ [(key, value)].

(** The two icon literals of lines 139 and 147, code unit by code unit as
    the file has them. *)
Definition ICON_OF_LIGHT : jsstr := [0xF0; 0x178; 0x152; 0x2122]%N.
Definition ICON_OF_DARK : jsstr := [0xE2; 0x2DC; 0x20AC; 0xEF; 0xB8]%N.

(** Line 136, [getAttribute('data-theme') || 'light']. *)
Definition currentTheme (c : Chrome) : jsstr :=
  match data_theme c with
  | Some theme => if is_empty theme then js "light" else theme
  | None => js "light"
  end.

(** Lines 135-141. *)
Definition toggleTheme (c : Chrome) : Chrome :=
  let newTheme := if jsstr_eqb (currentTheme c) (js "light") then js "dark" else js "light" in
  let c := set_data_theme (Some newTheme) c in
  let c :=
    set_themeIcon_textContent
      (if jsstr_eqb newTheme (js "light") then ICON_OF_LIGHT else ICON_OF_DARK) c in
  set_sync_storage (chrome_storage_sync_set (js "theme") (JString newTheme) (sync_storage c)) c.

(** Lines 35-38: the user sets the toggle, which is then [checked] or not,
    and the [change] listener runs. Without the element there is no
    listener (line 34). *)
Definition autoAnalyzeToggle_change (checked : bool) (c : Chrome) : Chrome :=
  match autoAnalyzeToggle_checked c with
  | None => c
  | Some _ =>
      let c := set_autoAnalyzeToggle_checked (Some checked) c in
      let isEnabled := checked in
      set_sync_storage
        (chrome_storage_sync_set (js "autoAnalyze") (JBool isEnabled) (sync_storage c)) c
  end.

(* ===================================================================== *)
(** * Built-ins that depend on the host *)
(* ===================================================================== *)

(** Three built-ins are left to the host where their definition is a table
    or an algorithm of its own: the Unicode upper-case mapping of a code
    unit outside ASCII, the digits of a number that is not an integer below
    [2^53], and the number a string denotes. *)
Record Builtins : Type := {
  host_toUpperCase : code_unit -> jsstr;
  host_Number_toString : float -> jsstr;
  host_StringToNumber : jsstr -> float
}.

Section Host.

Variable host : Builtins.

(** [String.prototype.toUpperCase] on the string [charAt] returns (empty or
    one code unit). *)
Definition toUpperCase (s : jsstr) : jsstr :=
  flat_map (fun c => if (c <? 0x80)%N then [ascii_upper c] else host_toUpperCase host c) s.

(** [Number::toString], radix 10. *)
Definition Number_toString (x : float) : jsstr :=
  match Prim2SF x with
  | S754_nan => js "NaN"
  | S754_zero _ => js "0"
  | S754_infinity false => js "Infinity"
  | S754_infinity true => js "-Infinity"
  | S754_finite sign m e =>
      match integer_value m e with
      | Some v =>
          if (v <? 2 ^ 53)%N
          then (if sign then js "-" else []) ++ decimal v
          else host_Number_toString host x
      | None => host_Number_toString host x
      end
  end.

(** [Array.prototype.join] with the separator [,] over elements already
    turned into strings. *)
Fixpoint join (parts : list jsstr) : jsstr :=
  match parts with
  | [] => []
  | [p] => p
  | p :: rest => p ++ js "," ++ join rest
  end.

Fixpoint sequence {A} (l : list (Outcome A)) : Outcome (list A) :=
  match l with
  | [] => Return []
  | o :: rest =>
      and_then o (fun a => and_then (sequence rest) (fun r => Return (a :: r)))
  end.

(** Whether an object from JSON shadows [Object.prototype.toString] with a
    value, which is never callable. *)
Definition shadows_toString (properties : list (jsstr * JsValue)) : bool :=
  match lookup (js "toString") properties with
  | Some _ => true
  | None => false
  end.

(** [ToString]. An array goes through [join], whose [undefined] and [null]
    elements give the empty string; a plain object gives
    ["[object Object]"] unless neither of its conversion methods can be
    called, a [TypeError]. *)
Fixpoint ToString (v : JsValue) : Outcome jsstr :=
  match v with
  | JUndefined => Return (js "undefined")
  | JNull => Return (js "null")
  | JBool b => Return (if b then js "true" else js "false")
  | JNumber n => Return (Number_toString n)
  | JString s => Return s
  | JArray elements =>
      and_then
        (sequence
           (map (fun x => match x with
                          | JUndefined | JNull => Return []
                          | _ => ToString x
                          end) elements))
        (fun parts => Return (join parts))
  | JObject properties =>
      if shadows_toString properties then Throw TypeError
      else Return (js "[object Object]")
  end.

(** [ToNumber] *)
Definition ToNumber (v : JsValue) : Outcome float :=
  match v with
  | JUndefined => Return nan
  | JNull => Return zero
  | JBool b => Return (if b then one else zero)
  | JNumber n => Return n
  | JString s => Return (host_StringToNumber host s)
  | JArray _ | JObject _ =>
      and_then (ToString v) (fun s => Return (host_StringToNumber host s))
  end.


(* ===================================================================== *)
(** * The methods of [WebSafeUI] *)
(* ===================================================================== *)

(** [alert(message)] and [console.error(label, error)] *)
Definition alert (message : jsstr) : M unit :=
  modify (fun st => set_alerts (alerts st ++ [message]) st).

Definition console_error (label : jsstr) (error : JsError) : M unit :=
  modify (fun st => set_console (console st ++ [(label, error)]) st).

(** [setTimeout(callback, delay)] *)
Definition setTimeout (callback : Callback) (delay : N) : M unit :=
  modify (fun st => set_timers (timers st ++ [Build_Timer callback delay]) st).

(** [fetch(resource, options)], awaited. *)
Definition fetch (net : Network) (request : Request) : M Response :=
  modify (fun st => set_requests (requests st ++ [request]) st) ;;
  lift (net request).

(** [Array.prototype.forEach] *)
Fixpoint forEach {A} (elements : list A) (callback : A -> M unit) : M unit :=
  match elements with
  | [] => ret tt
  | x :: rest => callback x ;; forEach rest callback
  end.

(** Lines 119-121. *)
Definition showError (message : jsstr) : M unit := alert message.

(** Lines 123-133. *)
Definition showLoading (isLoading : bool) : M unit := modify (set_loading isLoading).

(** Lines 161-164. *)
Definition expandPopup : M unit := modify (set_body_classes false true).

(** Line 90, [url && /^...$/.test(url)] read as a condition. *)
Definition isValid (url : jsstr) : bool :=
  negb (is_empty url) && Regex.test URL_PATTERN url.

(** Lines 88-92. *)
Definition validateInput : M unit :=
  url <- gets (fun st => trim (urlInput_value st)) ;;
  modify (set_analyzeBtn_disabled (negb (isValid url))).

(** Line 30: the user edits the field, which then holds [text], and the
    [input] listener runs. *)
Definition input_event (text : jsstr) : M unit :=
  modify (set_urlInput_value text) ;;
  validateInput.

(** [JSON.stringify({ url: url })] *)
Definition JSON_stringify_url (url : jsstr) : jsstr :=
  js "{" ++ dquote ++ js "url" ++ dquote ++ js ":" ++ QuoteJSONString url ++ js "}".

(** Lines 63-67: the arguments of the [fetch] call. *)
Definition predict_request (url : jsstr) : Request :=
  {| req_resource := js "http://localhost:5000/predict";
     req_method := js "POST";
     req_headers := [(js "Content-Type", js "application/json")];
     req_body := JSON_stringify_url url |}.

(** Lines 61-76. *)
Definition performAnalysis (net : Network) (url : jsstr) : M JsValue :=
  try_catch
    (response <- fetch net (predict_request url) ;;
     if negb (resp_ok response) then
       text <- lift (resp_text response) ;;
       throw (Error (js "HTTP error " ++ decimal (resp_status response) ++ js ": " ++ text))
     else lift (resp_json response))
    (fun error =>
       console_error (js "API call failed:") error ;;
       throw error).

(** The template literal of lines 108-114. *)
Definition parameter_markup (icon name status label : jsstr) : jsstr :=
  newline
  ++ js "        <div class=" ++ dquote ++ js "parameter-name" ++ dquote ++ js ">" ++ newline
  ++ js "          <span>" ++ icon ++ js "</span>" ++ newline
  ++ js "          <span>" ++ name ++ js "</span>" ++ newline
  ++ js "        </div>" ++ newline
  ++ js "        <span class=" ++ dquote ++ js "parameter-status status-" ++ status ++ dquote
  ++ js ">" ++ label ++ js "</span>" ++ newline
  ++ js "      ".

(** [status.charAt(0).toUpperCase() + status.slice(1)]; only a string has
    the two methods. *)
Definition capitalize (status : JsValue) : Outcome jsstr :=
  match status with
  | JString s => Return (toUpperCase (charAt0 s) ++ slice1 s)
  | _ => Throw TypeError
  end.

(** Lines 106-114: the element made for one parameter. *)
Definition createParameterItem (param : JsValue) : Outcome Element :=
  let? icon := Get param "icon" in
  let? icon := ToString icon in
  let? name := Get param "name" in
  let? name := ToString name in
  let? status := Get param "status" in
  let? status_text := ToString status in
  let? label := capitalize status in
  Return {| className := js "parameter-item";
            innerHTML := parameter_markup icon name status_text label |}.

(** [element.style.width = value]: a value that is not a width leaves the
    declaration as it was. *)
Definition set_style_width (value : jsstr) (st : UI) : UI :=
  if Regex.test CSS_PERCENTAGE value then set_progressFill_width value st else st.

(** Lines 94-117. *)
Definition displayResults (analysis : JsValue) : M unit :=
  modify (set_resultsSection_hidden false) ;;
  raw <- lift (let? v := Get analysis "score" in ToNumber v) ;;
  let score := Math_round (raw / 10)%float in
  modify (set_scoreValue_textContent (Number_toString score ++ js "/10")) ;;
  let percentage := (score * 10)%float in
  modify (set_style_width (Number_toString percentage ++ js "%")) ;;
  modify (set_parametersList []) ;;
  parameters <- lift (Get analysis "parameters") ;;
  match parameters with
  | JArray elements =>
      forEach elements (fun param =>
        paramElement <- lift (createParameterItem param) ;;
        modify (fun st => set_parametersList (parametersList st ++ [paramElement]) st))
  | _ => throw TypeError
  end.

(** Lines 42-59. *)
Definition handleAnalyze (net : Network) : M unit :=
  url <- gets (fun st => trim (urlInput_value st)) ;;
  if is_empty url then showError (js "Please enter a URL")
  else
    try_finally
      (try_catch
         (showLoading true ;;
          analysis <- performAnalysis net url ;;
          displayResults analysis ;;
          expandPopup)
         (fun error => showError (js "Analysis failed. Please try again.")))
      (showLoading false).

(** ** The call and the events handled while it is suspended

    [handleAnalyze] is an [async] method: at the [await] of the request
    (line 63) and at the [await] of the body (lines 69 and 72) it is
    suspended, and the page handles the events that arrive before it
    resumes. *)

(** The handler of another event, run while a call is suspended: what it
    throws does not reach the call. *)
Definition meanwhile (handler : M unit) : M unit :=
  fun w => (Return tt, snd (handler w)).

(** [await fetch(resource, options)], [pending] being what the page handles
    before the response arrives. *)
Definition fetch_during (pending : M unit) (net : Network) (request : Request) : M Response :=
  modify (fun st => set_requests (requests st ++ [request]) st) ;;
  meanwhile pending ;;
  lift (net request).

(** Lines 61-76, [reading] being what the page handles before the body is
    read. *)
Definition performAnalysis_during (pending reading : M unit) (net : Network) (url : jsstr) :
    M JsValue :=
  try_catch
    (response <- fetch_during pending net (predict_request url) ;;
     if negb (resp_ok response) then
       meanwhile reading ;;
       text <- lift (resp_text response) ;;
       throw (Error (js "HTTP error " ++ decimal (resp_status response) ++ js ": " ++ text))
     else
       meanwhile reading ;;
       lift (resp_json response))
    (fun error =>
       console_error (js "API call failed:") error ;;
       throw error).

(** Lines 51-55 with these events. *)
Definition attempt_during (pending reading : M unit) (net : Network) (url : jsstr) : M unit :=
  try_catch
    (analysis <- performAnalysis_during pending reading net url ;;
     displayResults analysis ;;
     expandPopup)
    (fun error => showError (js "Analysis failed. Please try again.")).

(** Lines 42-59 with these events. With no event, [ret tt] twice, this is
    [handleAnalyze]. *)
Definition handleAnalyze_during (pending reading : M unit) (net : Network) : M unit :=
  url <- gets (fun st => trim (urlInput_value st)) ;;
  if is_empty url then showError (js "Please enter a URL")
  else
    try_finally
      (try_catch
         (showLoading true ;;
          analysis <- performAnalysis_during pending reading net url ;;
          displayResults analysis ;;
          expandPopup)
         (fun error => showError (js "Analysis failed. Please try again.")))
      (showLoading false).

(** The result object [chrome.storage.sync.get(keys, callback)] hands to its
    callback: the stored items among [keys]. *)
Definition chrome_storage_sync_get (storage : list (jsstr * JsValue)) (keys : list jsstr) : JsValue :=
  JObject (filter (fun item => existsb (jsstr_eqb (fst item)) keys) storage).

(** Lines 192-199: the callback of the storage read. *)
Definition autoAnalyze_callback (result : JsValue) : M unit :=
  autoAnalyze <- lift (Get result "autoAnalyze") ;;
  let isEnabled := strict_neq_false autoAnalyze in
  url <- gets (fun st => trim (urlInput_value st)) ;;
  if isEnabled && negb (is_empty url)
  then setTimeout call_handleAnalyze 500
  else ret tt.

(** Lines 184-204 up to the storage read; the result tells whether the read
    was issued. [query] is what [chrome.tabs.query] settles with. *)
Definition autoFillURL (query : Outcome (list Tab)) : M bool :=
  try_catch
    (tabs <- lift query ;;
     match tabs with
     | {| tab_url := Some url |} :: _ =>
         if is_empty url then ret false
         else
           modify (set_urlInput_value url) ;;
           validateInput ;;
           ret true
     | _ => ret false
     end)
    (fun e =>
       console_error (js "Failed to auto-fill or analyze URL:") e ;;
       ret false).

(** [autoFillURL] on popup load, then the storage callback once the read it
    issued has completed. *)
Definition autoFillURL_on_load (query : Outcome (list Tab)) (storage : list (jsstr * JsValue)) : M unit :=
  issued <- autoFillURL query ;;
  if issued
  then autoAnalyze_callback (chrome_storage_sync_get storage [js "autoAnalyze"])
  else ret tt.

(** What a timer does when it fires. *)
Definition fire (net : Network) (timer : Timer) : M unit :=
  match timer_callback timer with
  | call_handleAnalyze => handleAnalyze net
  end.

(** ** Parts of the methods, named for the statements below *)

(** Lines 62-71 without their effects: what the request for [url] completes
    with, the parsed body of a response that is [ok] or the error of lines
    68-70. *)
Definition analysis_of (net : Network) (url : jsstr) : Outcome JsValue :=
  let? response := net (predict_request url) in
  if negb (resp_ok response) then
    let? text := resp_text response in
    Throw (Error (js "HTTP error " ++ decimal (resp_status response) ++ js ": " ++ text))
  else resp_json response.

(** Lines 105-116: the loop over the parameters. *)
Definition appendParameters (elements : list JsValue) : M unit :=
  forEach elements (fun param =>
    paramElement <- lift (createParameterItem param) ;;
    modify (fun st => set_parametersList (parametersList st ++ [paramElement]) st)).

(** Lines 51-55: the [try] block of [handleAnalyze] after
    [showLoading(true)], with its [catch] clause. *)
Definition attempt (net : Network) (url : jsstr) : M unit :=
  try_catch
    (analysis <- performAnalysis net url ;;
     displayResults analysis ;;
     expandPopup)
    (fun error => showError (js "Analysis failed. Please try again.")).

(** ** The other listeners and loaders *)

(** Line 27: a click on the trigger. A disabled button receives none. *)
Definition click_analyzeBtn (net : Network) : M unit :=
  disabled <- gets analyzeBtn_disabled ;;
  if disabled then ret tt else handleAnalyze net.

(** Lines 78-86. [readText] is what [navigator.clipboard.readText()] settles
    with. [sanitize] is the value sanitization of the field, which the type
    of the [input] element in popup.html fixes (a clipboard text, unlike a
    tab's URL, can hold the line breaks and blanks it removes). *)
Definition handlePaste (sanitize : jsstr -> jsstr) (readText : Outcome jsstr) : M unit :=
  try_catch
    (text <- lift readText ;;
     modify (set_urlInput_value (sanitize text)) ;;
     validateInput)
    (fun error => showError (js "Failed to paste from clipboard")).

(** Lines 166-180. [clipboard] is the text on the clipboard when the method
    is called and the value of the computation the text on it when the
    method completes (the method itself returns nothing). [writeText] is
    what [navigator.clipboard.writeText] settles with for a text: when it
    is fulfilled the clipboard holds the text, when it is rejected the
    clipboard is as before. [describe] is the string an error converts to
    in ["Failed to copy URL: " + error]. *)
Definition copyCurrentTabURL (describe : JsError -> jsstr) (query : Outcome (list Tab))
    (writeText : jsstr -> Outcome unit) (clipboard : jsstr) : M jsstr :=
  try_catch
    (tabs <- lift query ;;
     match tabs with
     | {| tab_url := Some url |} :: _ =>
         if is_empty url then
           alert (js "Could not fetch tab URL") ;;
           ret clipboard
         else
           lift (writeText url) ;;
           let clipboard := url in
           modify (set_urlInput_value url) ;;
           validateInput ;;
           alert (js "URL copied: " ++ url) ;;
           ret clipboard
     | _ =>
         alert (js "Could not fetch tab URL") ;;
         ret clipboard
     end)
    (fun error =>
       alert (js "Failed to copy URL: " ++ describe error) ;;
       ret clipboard).

(** Lines 143-149: [loadTheme] with the callback of its storage read. An
    exception of the callback leaves the page as it was. *)
Definition loadTheme (c : Chrome) : Outcome Chrome :=
  let result := chrome_storage_sync_get (sync_storage c) [js "theme"] in
  let? stored := Get result "theme" in
  let theme := if truthy stored then stored else JString (js "light") in
  let? attribute := ToString theme in
  let c := set_data_theme (Some attribute) c in
  Return
    (set_themeIcon_textContent
       (if strict_eq_string theme (js "light") then ICON_OF_LIGHT else ICON_OF_DARK) c).

(** Lines 151-160. *)
Definition checkAutoScanStatus (c : Chrome) : Outcome Chrome :=
  let result := chrome_storage_sync_get (sync_storage c) [js "autoScan"] in
  let? stored := Get result "autoScan" in
  let autoScan := strict_neq_false stored in
  match statusDot_active c with
  | Some _ => Return (set_statusDot_active (Some autoScan) c)
  | None => Return c
  end.

(** Lines 206-213. *)
Definition loadAutoAnalyzeSetting (c : Chrome) : Outcome Chrome :=
  let result := chrome_storage_sync_get (sync_storage c) [js "autoAnalyze"] in
  let? stored := Get result "autoAnalyze" in
  let isEnabled := strict_neq_false stored in
  match autoAnalyzeToggle_checked c with
  | Some _ => Return (set_autoAnalyzeToggle_checked (Some isEnabled) c)
  | None => Return c
  end.

(** The items of the list once the loop of lines 105-116 stops: those of
    the parameters before the first that cannot be rendered. *)
Fixpoint rendered (elements : list JsValue) : list Element :=
  match elements with
  | [] => []
  | param :: rest =>
      match createParameterItem param with
      | Return item => item :: rendered rest
      | Throw _ => []
      end
  end.

End Host.

(** What a computation started on the page [st] completes with, the page it
    leaves, and the pages before that one, the first being [st]. *)
Definition result {A} (m : M A) (st : UI) : Outcome A := fst (m (start st)).
Definition final {A} (m : M A) (st : UI) : UI := now (snd (m (start st))).
Definition states {A} (m : M A) (st : UI) : list UI := rev (earlier (snd (m (start st)))).

(** [P] holds of every page a computation goes through once it holds of the
    page it starts on. *)
Definition preserves {A} (P : UI -> Prop) (m : M A) : Prop :=
  forall w, P (now w) ->
    P (now (snd (m w))) /\
    exists new, earlier (snd (m w)) = new ++ earlier w /\ Forall P new.

(** The page while an analysis is under way: the trigger is disabled and the
    loading indicator shows. *)
Definition Loading (st : UI) : Prop :=
  analyzeBtn_disabled st = true /\ loader_hidden st = false.

(** A host for the concrete runs of this file, none of which reaches it. *)
Definition no_host : Builtins :=
  {| host_toUpperCase := fun c => [c];
     host_Number_toString := fun _ => [];
     host_StringToNumber := fun _ => nan |}.

(** The two shapes of the response body, as JSON values. *)
Definition ParameterResult (icon name status : jsstr) : JsValue :=
  JObject [(js "icon", JString icon); (js "name", JString name); (js "status", JString status)].

Definition AnalysisResponse (score : float) (parameters : list JsValue) : JsValue :=
  JObject [(js "score", JNumber score); (js "parameters", JArray parameters)].

(** A popup for the concrete runs: nothing shown yet, the field holding
    [value] and the trigger as [validateInput] sets it. *)
Definition page (value : jsstr) : UI :=
  {| urlInput_value := value;
     analyzeBtn_disabled := negb (isValid (trim value));
     btnText_hidden := false;
     loader_hidden := true;
     resultsSection_hidden := true;
     scoreValue_textContent := [];
     progressFill_width := [];
     parametersList := [];
     body_collapsed := true;
     body_expanded := false;
     alerts := [];
     console := [];
     requests := [];
     timers := [] |}.

(** A network whose endpoint answers every request with the same status and
    body. *)
Definition server (status : N) (text : jsstr) (json : Outcome JsValue) : Network :=
  fun _ => Return {| resp_status := status; resp_text := Return text; resp_json := json |}.

(** The timer [autoFillURL] arms. *)
Definition auto_analyze_timer : Timer :=
  {| timer_callback := call_handleAnalyze; timer_delay := 500 |}.

(** The code units that occur in the pattern of line 90: those of its two
    classes and of its scheme. *)
Definition url_char (c : code_unit) : bool := word_char c || one_of "- ./?%&=:" c.

(** A browser for the concrete runs: no theme set, both elements present,
    the given items stored. *)
Definition chrome (storage : list (jsstr * JsValue)) : Chrome :=
  {| data_theme := None;
     themeIcon_textContent := [];
     autoAnalyzeToggle_checked := Some false;
     statusDot_active := Some false;
     sync_storage := storage |}.

(** ** Summaries of the methods, for the properties that close the file *)

(** Every class of a pattern lies within [P]. *)
Fixpoint classes_within (P : code_unit -> bool) (r : Regex.t) : Prop :=
  match r with
  | Regex.Void | Regex.Eps => True
  | Regex.Class p => forall c, p c = true -> P c = true
  | Regex.Seq r1 r2 | Regex.Alt r1 r2 => classes_within P r1 /\ classes_within P r2
  | Regex.Star r1 => classes_within P r1
  end.

(** The page [displayResults] leaves, in one expression. *)
Definition render_page (host : Builtins) (analysis : JsValue) (st : UI) : UI :=
  let st1 := set_resultsSection_hidden false st in
  match (let? v := Get analysis "score" in ToNumber host v) with
  | Throw _ => st1
  | Return raw =>
      let score := Math_round (raw / 10)%float in
      let st2 := set_scoreValue_textContent (Number_toString host score ++ js "/10") st1 in
      let st3 := set_style_width (Number_toString host (score * 10)%float ++ js "%") st2 in
      let st4 := set_parametersList [] st3 in
      match Get analysis "parameters" with
      | Return (JArray elements) => set_parametersList (rendered host elements) st4
      | _ => st4
      end
  end.

(** The page [handleAnalyze] leaves, in one expression. *)
Definition analyzed_page (host : Builtins) (net : Network) (st : UI) : UI :=
  let url := trim (urlInput_value st) in
  if is_empty url then set_alerts (alerts st ++ [js "Please enter a URL"]) st
  else
    let st1 := set_requests (requests st ++ [predict_request url]) (set_loading true st) in
    set_loading false
      match analysis_of net url with
      | Throw e =>
          let st2 := set_console (console st1 ++ [(js "API call failed:", e)]) st1 in
          set_alerts (alerts st2 ++ [js "Analysis failed. Please try again."]) st2
      | Return analysis =>
          let st2 := render_page host analysis st1 in
          match result (displayResults host analysis) st with
          | Return _ => set_body_classes false true st2
          | Throw _ => set_alerts (alerts st2 ++ [js "Analysis failed. Please try again."]) st2
          end
      end.

(** The trigger's flag is the negation of the verdict on the field. *)
Definition agrees (st : UI) : Prop :=
  analyzeBtn_disabled st = negb (isValid (trim (urlInput_value st))).

(* ===================================================================== *)
(** * The matcher decides the language of the pattern *)
(* ===================================================================== *)

Module RegexFacts.
Import Regex.

Create HintDb regex.
#[local] Hint Constructors Matches : regex.

Lemma Matches_Seq_inv (r1 r2 : t) (s : jsstr) :
  Matches (Seq r1 r2) s ->
  exists s1 s2, s = s1 ++ s2 /\ Matches r1 s1 /\ Matches r2 s2.
Proof. intro H. inversion H; subst; eauto. Qed.

Lemma Matches_Alt_inv (r1 r2 : t) (s : jsstr) :
  Matches (Alt r1 r2) s -> Matches r1 s \/ Matches r2 s.
Proof. intro H. inversion H; subst; auto. Qed.

Lemma Matches_Seq_cons (r1 r2 : t) (c : code_unit) (s1 s2 : jsstr) :
  Matches r1 (c :: s1) -> Matches r2 s2 -> Matches (Seq r1 r2) (c :: s1 ++ s2).
Proof. intros H1 H2. apply (MSeq _ _ _ _ H1 H2). Qed.

Lemma nullable_Matches (r : t) : nullable r = true <-> Matches r [].
Proof.
  induction r as [| | p | r1 IH1 r2 IH2 | r1 IH1 r2 IH2 | r IH]; simpl; split; intro H;
    try discriminate; auto with regex.
  - inversion H.
  - inversion H.
  - apply andb_true_iff in H as [H1 H2].
    apply (MSeq r1 r2 [] []); [apply IH1 | apply IH2]; assumption.
  - apply Matches_Seq_inv in H as (s1 & s2 & E & H1 & H2).
    symmetry in E. apply app_eq_nil in E as [-> ->].
    apply andb_true_iff; split; [apply IH1 | apply IH2]; assumption.
  - apply orb_true_iff in H as [H | H]; [apply MAltL, IH1 | apply MAltR, IH2]; assumption.
  - apply orb_true_iff.
    apply Matches_Alt_inv in H as [H | H]; [left; apply IH1 | right; apply IH2]; assumption.
Qed.

(** A non-empty match of a repetition starts with a non-empty match of its
    body. *)
Lemma Matches_Star_cons (r : t) (c : code_unit) (s : jsstr) :
  Matches (Star r) (c :: s) ->
  exists s1 s2, s = s1 ++ s2 /\ Matches r (c :: s1) /\ Matches (Star r) s2.
Proof.
  intro H. remember (Star r) as r' eqn:Er. remember (c :: s) as l eqn:El.
  revert s El.
  induction H as [| | | | | | r0 s1 s2 H1 _ H2 IH2]; intros s0 El; try discriminate.
  injection Er as ->.
  destruct s1 as [| c1 s1']; simpl in El.
  - apply IH2; auto.
  - injection El as Ec Es. subst c1 s0. exists s1', s2. auto.
Qed.

Lemma Matches_deriv (c : code_unit) (r : t) (s : jsstr) :
  Matches (deriv c r) s <-> Matches r (c :: s).
Proof.
  revert s.
  induction r as [| | p | r1 IH1 r2 IH2 | r1 IH1 r2 IH2 | r IH]; intro s; simpl.
  - split; intro H; inversion H.
  - split; intro H; inversion H.
  - destruct (p c) eqn:Ep; split; intro H; inversion H; subst.
    + constructor; assumption.
    + constructor.
    + congruence.
  - assert (Hseq : Matches (Seq (deriv c r1) r2) s -> Matches (Seq r1 r2) (c :: s)).
    { intro H. apply Matches_Seq_inv in H as (s1 & s2 & -> & H1 & H2).
      apply Matches_Seq_cons; [apply IH1|]; assumption. }
    assert (Hinv : Matches (Seq r1 r2) (c :: s) ->
                   Matches (Seq (deriv c r1) r2) s \/
                   (Matches r1 [] /\ Matches r2 (c :: s))).
    { intro H. apply Matches_Seq_inv in H as (s1 & s2 & E & H1 & H2).
      destruct s1 as [| c1 s1']; simpl in E.
      - subst s2. right; auto.
      - injection E as Ec Es. subst c1 s. left. constructor; [apply IH1|]; assumption. }
    destruct (nullable r1) eqn:En; split; intro H.
    + apply Matches_Alt_inv in H as [H | H]; [auto |].
      apply (MSeq r1 r2 [] (c :: s)).
      * apply nullable_Matches; assumption.
      * apply IH2; assumption.
    + destruct (Hinv H) as [H' | [_ H']]; [apply MAltL | apply MAltR, IH2]; assumption.
    + auto.
    + destruct (Hinv H) as [H' | [H' _]]; [assumption |].
      apply nullable_Matches in H'. congruence.
  - split; intro H; apply Matches_Alt_inv in H as [H | H];
      [apply MAltL, IH1 | apply MAltR, IH2 | apply MAltL, IH1 | apply MAltR, IH2]; assumption.
  - split; intro H.
    + apply Matches_Seq_inv in H as (s1 & s2 & -> & H1 & H2).
      apply (MStarCons r (c :: s1) s2); [apply IH|]; assumption.
    + apply Matches_Star_cons in H as (s1 & s2 & -> & H1 & H2).
      constructor; [apply IH|]; assumption.
Qed.

(** [test] accepts exactly the strings the pattern matches. *)
Lemma test_Matches (r : t) (s : jsstr) : test r s = true <-> Matches r s.
Proof.
  revert r. induction s as [| c s IH]; intro r; simpl.
  - apply nullable_Matches.
  - rewrite IH. apply Matches_deriv.
Qed.

End RegexFacts.

(* ===================================================================== *)
(** * Pages a computation goes through *)
(* ===================================================================== *)

Section Preservation.

Variable P : UI -> Prop.

Lemma preserves_ret {A} (a : A) : preserves P (ret a).
Proof. intros w H. simpl. split; [assumption | exists []; auto]. Qed.

Lemma preserves_throw {A} (e : JsError) : preserves P (@throw A e).
Proof. intros w H. simpl. split; [assumption | exists []; auto]. Qed.

Lemma preserves_lift {A} (o : Outcome A) : preserves P (lift o).
Proof. intros w H. simpl. split; [assumption | exists []; auto]. Qed.

Lemma preserves_gets {A} (f : UI -> A) : preserves P (gets f).
Proof. intros w H. simpl. split; [assumption | exists []; auto]. Qed.

Lemma preserves_modify (f : UI -> UI) :
  (forall st, P st -> P (f st)) -> preserves P (modify f).
Proof.
  intros Hf w H. simpl. split; [auto |].
  exists [now w]. split; [reflexivity | auto].
Qed.

Lemma preserves_bind {A B} (m : M A) (k : A -> M B) :
  preserves P m -> (forall a, preserves P (k a)) -> preserves P (bind m k).
Proof.
  intros Hm Hk w H. unfold bind.
  destruct (Hm w H) as [H1 (new1 & E1 & F1)].
  destruct (m w) as [[a | e] w1]; simpl in *.
  - destruct (Hk a w1 H1) as [H2 (new2 & E2 & F2)].
    split; [assumption |].
    exists (new2 ++ new1). rewrite E2, E1, app_assoc.
    split; [reflexivity | apply Forall_app; auto].
  - split; [assumption | exists new1; auto].
Qed.

Lemma preserves_try_catch {A} (body : M A) (handler : JsError -> M A) :
  preserves P body -> (forall e, preserves P (handler e)) ->
  preserves P (try_catch body handler).
Proof.
  intros Hm Hk w H. unfold try_catch.
  destruct (Hm w H) as [H1 (new1 & E1 & F1)].
  destruct (body w) as [[a | e] w1]; simpl in *.
  - split; [assumption | exists new1; auto].
  - destruct (Hk e w1 H1) as [H2 (new2 & E2 & F2)].
    split; [assumption |].
    exists (new2 ++ new1). rewrite E2, E1, app_assoc.
    split; [reflexivity | apply Forall_app; auto].
Qed.

Lemma preserves_try_finally {A} (body : M A) (finalizer : M unit) :
  preserves P body -> preserves P finalizer ->
  preserves P (try_finally body finalizer).
Proof.
  intros Hm Hk w H. unfold try_finally.
  destruct (Hm w H) as [H1 (new1 & E1 & F1)].
  destruct (body w) as [r w1]; simpl in *.
  destruct (Hk w1 H1) as [H2 (new2 & E2 & F2)].
  destruct (finalizer w1) as [[[] | e] w2]; simpl in *;
    (split; [assumption |]; exists (new2 ++ new1); rewrite E2, E1, app_assoc;
     split; [reflexivity | apply Forall_app; auto]).
Qed.

Lemma preserves_meanwhile (handler : M unit) :
  preserves P handler -> preserves P (meanwhile handler).
Proof. intros Hm w H. exact (Hm w H). Qed.

Lemma preserves_forEach {A} (elements : list A) (callback : A -> M unit) :
  (forall x, preserves P (callback x)) -> preserves P (forEach elements callback).
Proof.
  intro H. induction elements as [| x rest IH]; simpl.
  - apply preserves_ret.
  - apply preserves_bind; auto.
Qed.

End Preservation.

(* ===================================================================== *)
(** * The methods, statement by statement *)
(* ===================================================================== *)

Ltac page_simpl :=
  cbn [urlInput_value analyzeBtn_disabled btnText_hidden loader_hidden
       resultsSection_hidden scoreValue_textContent progressFill_width
       parametersList body_collapsed body_expanded alerts console requests timers
       set_urlInput_value set_analyzeBtn_disabled set_loading
       set_resultsSection_hidden set_scoreValue_textContent set_progressFill_width
       set_parametersList set_body_classes set_alerts set_console set_requests
       set_timers push now earlier start fst snd negb] in *.

(** A property of the page that a change of other fields keeps. *)
Ltac frame := intros; page_simpl; solve [assumption | tauto | congruence | auto].

Ltac preserving :=
  repeat first
    [ apply preserves_ret | apply preserves_throw | apply preserves_lift
    | apply preserves_gets
    | apply preserves_bind; [| intro]
    | apply preserves_try_catch; [| intro]
    | apply preserves_modify; frame
    | match goal with
      | |- preserves _ (match ?x with _ => _ end) => destruct x
      end ].

Lemma is_empty_false (s : jsstr) : is_empty s = false <-> s <> [].
Proof. destruct s; simpl; split; congruence. Qed.

Lemma sequence_of_Forall2 {A B} (f : A -> Outcome B) (l : list A) (r : list B) :
  Forall2 (fun a b => f a = Return b) l r -> sequence (map f l) = Return r.
Proof.
  induction 1 as [| a b l r Hab _ IH]; simpl; [reflexivity |].
  rewrite Hab, IH. reflexivity.
Qed.

Lemma N_up_to_100 (P : N -> Prop) :
  Forall P (map N.of_nat (seq 0 101)) -> forall s, (s <= 100)%N -> P s.
Proof.
  intros H s Hs. rewrite Forall_forall in H. apply H.
  rewrite <- (N2Nat.id s). apply in_map. apply in_seq. lia.
Qed.

Lemma N_up_to_10 (P : N -> Prop) :
  Forall P (map N.of_nat (seq 0 11)) -> forall k, (k <= 10)%N -> P k.
Proof.
  intros H k Hk. rewrite Forall_forall in H. apply H.
  rewrite <- (N2Nat.id k). apply in_map. apply in_seq. lia.
Qed.

Lemma lookup_storage_get (key : jsstr) (storage : list (jsstr * JsValue)) :
  lookup key (filter (fun item => existsb (jsstr_eqb (fst item)) [key]) storage)
  = lookup key storage.
Proof.
  induction storage as [| [k v] rest IH]; [reflexivity |].
  cbn [filter existsb fst lookup] in *. rewrite orb_false_r.
  destruct (jsstr_eqb k key) eqn:E.
  - cbn [lookup]. rewrite IH, E. reflexivity.
  - rewrite IH. destruct (lookup key rest); reflexivity.
Qed.

(* ===================================================================== *)
(** * A score from 0 to 100, divided by ten and rounded *)
(* ===================================================================== *)

(** The division of binary64 numbers is the one of [SpecFloat]: an integer
    division of the mantissas, then a shift to 53 digits with rounding to
    the nearest, ties to even. Below, a dividend under [100] gives a
    quotient under [10] before rounding, and rounding does not go past
    [10], which is a binary64 number. *)

Section FloatFacts.

Local Open Scope Z_scope.

Lemma fexp_eq (z : Z) : fexp prec emax z = Z.max (z - 53) (-1074).
Proof. reflexivity. Qed.

Lemma digits2_pos_le (p : positive) :
  forall k, Zpos p < 2 ^ k -> 0 <= k -> Zpos (digits2_pos p) <= k.
Proof.
  induction p as [p IH | p IH |]; intros k Hp Hk; cbn [digits2_pos].
  - assert (k <> 0) by (intros ->; cbn in Hp; lia).
    replace k with (Z.succ (k - 1)) in Hp by lia.
    rewrite Z.pow_succ_r in Hp by lia.
    specialize (IH (k - 1)). rewrite Pos2Z.inj_succ. lia.
  - assert (k <> 0) by (intros ->; cbn in Hp; lia).
    replace k with (Z.succ (k - 1)) in Hp by lia.
    rewrite Z.pow_succ_r in Hp by lia.
    specialize (IH (k - 1)). rewrite Pos2Z.inj_succ. lia.
  - assert (k <> 0) by (intros ->; cbn in Hp; lia). lia.
Qed.

Lemma Zdigits2_le (m k : Z) : 0 <= m -> m < 2 ^ k -> 0 <= k -> Zdigits2 m <= k.
Proof.
  intros Hm Hlt Hk. destruct m as [| p | p]; cbn [Zdigits2]; [lia | | lia].
  apply digits2_pos_le; assumption.
Qed.

Lemma shr_1_m (mrs : shr_record) : 0 <= shr_m mrs -> shr_m (shr_1 mrs) = shr_m mrs / 2.
Proof.
  destruct mrs as [m r s]. cbn [shr_m shr_1]. intro Hm.
  destruct m as [| [p | p |] | p]; cbn [shr_m]; try lia.
  - reflexivity.
  - apply Z.div_unique with (r := 1); lia.
  - apply Z.div_unique with (r := 0); lia.
  - reflexivity.
Qed.

Lemma iter_shr_1_m (p : positive) :
  forall mrs, 0 <= shr_m mrs ->
    shr_m (iter_pos shr_1 p mrs) = shr_m mrs / 2 ^ Zpos p.
Proof.
  assert (Hdiv : forall a b, 0 <= a -> 0 < b -> 0 <= a / b)
    by (intros; apply Z.div_pos; lia).
  induction p as [p IH | p IH |]; intros mrs Hm; cbn [iter_pos].
  - assert (Hp : 0 < 2 ^ Zpos p) by (apply Z.pow_pos_nonneg; lia).
    assert (H1 : 0 <= shr_m (shr_1 mrs)) by (rewrite shr_1_m by exact Hm; apply Hdiv; lia).
    assert (H2 : 0 <= shr_m (iter_pos shr_1 p (shr_1 mrs)))
      by (rewrite IH by exact H1; apply Hdiv; lia).
    rewrite (IH _ H2), (IH _ H1), (shr_1_m _ Hm).
    rewrite !Z.div_div by lia.
    f_equal. rewrite (Pos2Z.inj_xI p).
    replace (2 * Zpos p + 1) with (1 + Zpos p + Zpos p) by lia.
    rewrite !Z.pow_add_r by lia. lia.
  - assert (Hp : 0 < 2 ^ Zpos p) by (apply Z.pow_pos_nonneg; lia).
    assert (H2 : 0 <= shr_m (iter_pos shr_1 p mrs))
      by (rewrite IH by exact Hm; apply Hdiv; lia).
    rewrite (IH _ H2), (IH _ Hm).
    rewrite !Z.div_div by lia.
    f_equal. rewrite (Pos2Z.inj_xO p).
    replace (2 * Zpos p) with (Zpos p + Zpos p) by lia.
    rewrite !Z.pow_add_r by lia. lia.
  - rewrite shr_1_m by assumption. reflexivity.
Qed.

Lemma shr_record_of_loc_m (m : Z) (l : location) : shr_m (shr_record_of_loc m l) = m.
Proof. destruct l as [| []]; reflexivity. Qed.

Lemma shr_fexp_m (m e : Z) (l : location) :
  0 <= m ->
  let e2 := Z.max e (fexp prec emax (Zdigits2 m + e)) in
  snd (shr_fexp prec emax m e l) = e2 /\
  shr_m (fst (shr_fexp prec emax m e l)) = m / 2 ^ (e2 - e).
Proof.
  intros Hm e2. subst e2. unfold shr_fexp, shr.
  destruct (fexp prec emax (Zdigits2 m + e) - e) as [| p | p] eqn:En; cbn [fst snd].
  - rewrite shr_record_of_loc_m. replace (Z.max _ _ - e) with 0 by lia.
    split; [lia |]. rewrite Z.pow_0_r, Z.div_1_r. reflexivity.
  - rewrite iter_shr_1_m by (rewrite shr_record_of_loc_m; exact Hm).
    rewrite shr_record_of_loc_m. split; [lia |]. f_equal. f_equal. lia.
  - rewrite shr_record_of_loc_m. replace (Z.max _ _ - e) with 0 by lia.
    split; [lia |]. rewrite Z.pow_0_r, Z.div_1_r. reflexivity.
Qed.

Lemma round_nearest_even_le (m : Z) (l : location) :
  m <= round_nearest_even m l <= m + 1.
Proof. destruct l as [| []]; cbn [round_nearest_even]; try destruct (Z.even m); lia. Qed.

(** One step of [shr_fexp] on a mantissa that stands for at most ten. *)
Lemma shr_fexp_below (m e : Z) (l : location) :
  0 <= m -> e <= -49 -> m <= 10 * 2 ^ (- e) ->
  let e2 := snd (shr_fexp prec emax m e l) in
  let m2 := shr_m (fst (shr_fexp prec emax m e l)) in
  e <= e2 <= -49 /\ 0 <= m2 <= 10 * 2 ^ (- e2) /\
  (m < 10 * 2 ^ (- e) -> m2 < 10 * 2 ^ (- e2)).
Proof.
  intros Hm He Hle e2 m2.
  destruct (shr_fexp_m m e l Hm) as [E2 M2]. fold e2 in E2. fold m2 in M2.
  cbv zeta in E2, M2. rewrite <- E2 in M2.
  assert (Hpow : 0 < 2 ^ (- e)) by (apply Z.pow_pos_nonneg; lia).
  assert (Hd : Zdigits2 m <= 4 - e).
  { apply Zdigits2_le; [lia | | lia].
    replace (4 - e) with (4 + - e) by lia. rewrite Z.pow_add_r by lia.
    change (2 ^ 4) with 16. lia. }
  rewrite fexp_eq in E2.
  assert (He2 : e <= e2 <= -49) by lia.
  split; [exact He2 |].
  assert (Hs : 0 < 2 ^ (e2 - e)) by (apply Z.pow_pos_nonneg; lia).
  assert (Hsplit : 2 ^ (- e) = 2 ^ (- e2) * 2 ^ (e2 - e)).
  { rewrite <- Z.pow_add_r by lia. f_equal. lia. }
  assert (Hp2 : 0 < 2 ^ (- e2)) by (apply Z.pow_pos_nonneg; lia).
  assert (Hm2 : 0 <= m2) by (rewrite M2; apply Z.div_pos; lia).
  split; [split; [exact Hm2 |] |].
  - rewrite M2. apply Z.div_le_upper_bound; [lia |]. rewrite Hsplit in Hle. lia.
  - intro Hlt. rewrite M2. apply Z.div_lt_upper_bound; [lia |]. rewrite Hsplit in Hlt. lia.
Qed.

Lemma binary_round_aux_below (m e : Z) (l : location) :
  0 <= m -> e <= -49 -> m < 10 * 2 ^ (- e) ->
  at_most_ten (binary_round_aux prec emax false m e l).
Proof.
  intros Hm He Hlt. unfold binary_round_aux.
  destruct (shr_fexp_below m e l Hm He ltac:(lia)) as (He1 & Hm1 & Hlt1).
  specialize (Hlt1 Hlt).
  destruct (shr_fexp prec emax m e l) as [mrs1 e1]. cbn [fst snd] in *.
  pose proof (round_nearest_even_le (shr_m mrs1) (loc_of_shr_record mrs1)) as Hr.
  set (m1 := round_nearest_even _ _) in *.
  destruct (shr_fexp_below m1 e1 loc_Exact ltac:(lia) ltac:(lia) ltac:(lia))
    as (He2 & Hm2 & _).
  destruct (shr_fexp prec emax m1 e1 loc_Exact) as [mrs2 e2]. cbn [fst snd] in *.
  destruct (shr_m mrs2) as [| p | p]; [exact I | | lia].
  replace (e2 <=? emax - prec) with true
    by (symmetry; apply Z.leb_le; change (emax - prec) with 971; lia).
  cbn [at_most_ten]. lia.
Qed.

Lemma digits2_pos_gt (p : positive) : Zpos p < 2 ^ Zpos (digits2_pos p).
Proof.
  induction p as [p IH | p IH |]; cbn [digits2_pos];
    rewrite ?Pos2Z.inj_succ, ?Z.pow_succ_r by lia;
    rewrite ?(Pos2Z.inj_xI p), ?(Pos2Z.inj_xO p); lia.
Qed.

Lemma SFdiv_below (m : positive) (e : Z) :
  bounded prec emax m e = true ->
  e <= -46 -> Zpos m < 100 * 2 ^ (- e) ->
  at_most_ten (SF64div (S754_finite false m e) (S754_finite false 5629499534213120 (-49))).
Proof.
  intros Hb He Hlt.
  unfold bounded, canonical_mantissa in Hb. apply andb_true_iff in Hb as [Hc _].
  apply Z.eqb_eq in Hc. rewrite fexp_eq in Hc.
  unfold SF64div, SFdiv, SFdiv_core_binary.
  change (Zdigits2 (Zpos 5629499534213120)) with 53.
  cbn [Zdigits2 xorb]. rewrite fexp_eq.
  set (d := Zpos (digits2_pos m)) in *.
  set (e' := Z.min _ _).
  assert (He' : e' <= -49 /\ 49 <= e - -49 - e') by (subst e'; lia).
  destruct (e - -49 - e') as [| s | s] eqn:Es; try lia.
  rewrite Z.shiftl_mul_pow2 by lia.
  pose proof (Z.div_eucl_eq (Zpos m * 2 ^ Zpos s) 5629499534213120 ltac:(lia)) as Hq.
  pose proof (Z.mod_pos_bound (Zpos m * 2 ^ Zpos s) 5629499534213120 ltac:(lia)) as Hr.
  unfold Z.modulo in Hr.
  destruct (Z.div_eucl (Zpos m * 2 ^ Zpos s) 5629499534213120) as [q r].
  assert (HS : 0 < 2 ^ Zpos s) by (apply Z.pow_pos_nonneg; lia).
  assert (HA : 0 < 2 ^ (- e)) by (apply Z.pow_pos_nonneg; lia).
  assert (HE : 0 < 2 ^ (- e')) by (apply Z.pow_pos_nonneg; lia).
  assert (Hpow : 2 ^ (- e) * 2 ^ Zpos s = 562949953421312 * 2 ^ (- e')).
  { change 562949953421312 with (2 ^ 49).
    rewrite <- !Z.pow_add_r by lia. f_equal. lia. }
  assert (Hms : Zpos m * 2 ^ Zpos s < 100 * (2 ^ (- e) * 2 ^ Zpos s)) by nia.
  apply binary_round_aux_below; [nia | lia | nia].
Qed.

Lemma tenth_at_most_ten (x : float) :
  (0 <=? x)%float = true -> (x <=? 100)%float = true ->
  at_most_ten (Prim2SF (x / 10)).
Proof.
  intros H0 H100. rewrite FloatAxioms.leb_spec in H0, H100. rewrite FloatAxioms.div_spec.
  change (Prim2SF 0) with (S754_zero false) in H0.
  change (Prim2SF 100) with (S754_finite false 7036874417766400 (-46)) in H100.
  change (Prim2SF 10) with (S754_finite false 5629499534213120 (-49)).
  pose proof (Prim2SF_valid x) as Hv.
  destruct (Prim2SF x) as [s | s | | s m e].
  - destruct s; exact I.
  - destruct s; discriminate.
  - discriminate.
  - destruct s; [discriminate |].
    cbn [valid_binary] in Hv.
    unfold SFleb, SFcompare in H100.
    destruct (Z.compare_spec e (-46)) as [-> | Hlt | Hgt]; [| | discriminate].
    + destruct (Pos.compare_cont Eq m 7036874417766400) eqn:Ec; [| | discriminate].
      * apply Pos.compare_eq in Ec. subst m. vm_compute. split; discriminate.
      * apply SFdiv_below; [exact Hv | lia |].
        exact Ec.
    + apply SFdiv_below; [exact Hv | lia |].
      unfold bounded, canonical_mantissa in Hv. apply andb_true_iff in Hv as [Hc _].
      apply Z.eqb_eq in Hc. rewrite fexp_eq in Hc.
      pose proof (digits2_pos_gt m) as Hd.
      assert (Hp : 2 ^ Zpos (digits2_pos m) <= 2 ^ 53) by (apply Z.pow_le_mono_r; lia).
      assert (Hq : 2 ^ 47 <= 2 ^ (- e)) by (apply Z.pow_le_mono_r; lia).
      change (2 ^ 53) with 9007199254740992 in Hp.
      change (2 ^ 47) with 140737488355328 in Hq. lia.
Qed.

Lemma Math_round_tenth (x : float) :
  (0 <=? x)%float = true -> (x <=? 100)%float = true ->
  exists k : N,
    (k <= 10)%N /\
    (Math_round (x / 10) = number_of_N k \/ k = 0%N /\ Math_round (x / 10) = neg_zero).
Proof.
  intros H0 H100. pose proof (tenth_at_most_ten x H0 H100) as H.
  unfold Math_round.
  destruct (Prim2SF (x / 10)) as [s | s | | s m e] eqn:E; cbn [at_most_ten] in H;
    try contradiction.
  - exists 0%N. split; [lia |].
    destruct s; [right; split; [reflexivity |] | left]; apply Prim2SF_inj; rewrite E; reflexivity.
  - destruct s; [contradiction |]. destruct H as [He Hm].
    replace (0 <=? e) with false by (symmetry; apply Z.leb_gt; lia).
    set (den := 2 ^ (- e)) in *.
    assert (Hden : 0 < den) by (apply Z.pow_pos_nonneg; lia).
    set (r := (2 * Zpos m + den) / (2 * den)).
    assert (Hr : 0 <= r < 11).
    { split; [apply Z.div_pos; lia | apply Z.div_lt_upper_bound; lia]. }
    exists (Z.to_N r). split; [lia |]. left.
    destruct (Z.eqb_spec r 0) as [-> | Hne]; [reflexivity |].
    replace (r <? 0) with false by (symmetry; apply Z.ltb_ge; lia).
    f_equal. lia.
Qed.

End FloatFacts.

Section Properties.

Variable host : Builtins.

Lemma handleAnalyze_run (net : Network) (w : World) :
  handleAnalyze host net w =
  let url := trim (urlInput_value (now w)) in
  if is_empty url then showError (js "Please enter a URL") w
  else
    let w' := snd (attempt host net url (push (set_loading true) w)) in
    (Return tt, push (set_loading false) w').
Proof.
  unfold handleAnalyze, attempt, bind at 1, gets. cbv zeta.
  destruct (is_empty _); [reflexivity |].
  unfold try_finally, try_catch, bind at 1, showLoading, modify. cbn [fst snd].
  match goal with |- context [bind ?m ?k ?w] => destruct (bind m k w) as [[[] | e] w1] end;
    reflexivity.
Qed.

Lemma attempt_run (net : Network) (url : jsstr) (w : World) :
  attempt host net url w =
  match performAnalysis net url w with
  | (Return analysis, w1) =>
      match displayResults host analysis w1 with
      | (Return _, w2) => (Return tt, push (set_body_classes false true) w2)
      | (Throw _, w2) =>
          (Return tt,
           push (fun st => set_alerts (alerts st ++ [js "Analysis failed. Please try again."]) st)
             w2)
      end
  | (Throw _, w1) =>
      (Return tt,
       push (fun st => set_alerts (alerts st ++ [js "Analysis failed. Please try again."]) st)
         w1)
  end.
Proof.
  unfold attempt, try_catch, bind.
  destruct (performAnalysis net url w) as [[analysis | e] w1]; [| reflexivity].
  destruct (displayResults host analysis w1) as [[[] | e] w2]; reflexivity.
Qed.

Lemma performAnalysis_run (net : Network) (url : jsstr) (w : World) :
  performAnalysis net url w =
  let w1 := push (fun st => set_requests (requests st ++ [predict_request url]) st) w in
  match analysis_of net url with
  | Return analysis => (Return analysis, w1)
  | Throw e =>
      (Throw e, push (fun st => set_console (console st ++ [(js "API call failed:", e)]) st) w1)
  end.
Proof.
  unfold performAnalysis, analysis_of, try_catch, fetch, console_error, bind, modify, lift,
    throw.
  cbn [fst snd]. cbv zeta.
  destruct (net (predict_request url)) as [response | e]; cbn [and_then]; [| reflexivity].
  destruct (negb (resp_ok response)).
  - destruct (resp_text response); reflexivity.
  - destruct (resp_json response); reflexivity.
Qed.

Lemma displayResults_run (analysis : JsValue) (w : World) :
  displayResults host analysis w =
  let w1 := push (set_resultsSection_hidden false) w in
  match (let? v := Get analysis "score" in ToNumber host v) with
  | Throw e => (Throw e, w1)
  | Return raw =>
      let score := Math_round (raw / 10)%float in
      let w2 := push (set_scoreValue_textContent (Number_toString host score ++ js "/10")) w1 in
      let w3 := push (set_style_width (Number_toString host (score * 10)%float ++ js "%")) w2 in
      let w4 := push (set_parametersList []) w3 in
      match Get analysis "parameters" with
      | Return (JArray elements) => appendParameters host elements w4
      | Return _ => (Throw TypeError, w4)
      | Throw e => (Throw e, w4)
      end
  end.
Proof.
  unfold displayResults, appendParameters, bind, modify, lift, throw. cbn [fst snd]. cbv zeta.
  destruct (and_then _ _) as [raw | e]; [| reflexivity].
  destruct (Get analysis "parameters") as [[] | e]; reflexivity.
Qed.

Lemma appendParameters_cons (param : JsValue) (rest : list JsValue) (w : World) :
  appendParameters host (param :: rest) w =
  match createParameterItem host param with
  | Return item =>
      appendParameters host rest
        (push (fun st => set_parametersList (parametersList st ++ [item]) st) w)
  | Throw e => (Throw e, w)
  end.
Proof.
  unfold appendParameters. cbn [forEach]. unfold bind, lift, modify.
  destruct (createParameterItem host param); reflexivity.
Qed.

(** The loop appends the items of the parameters in their order, up to the
    first one that cannot be rendered. *)
Lemma appendParameters_run (elements : list JsValue) (w : World) :
  match sequence (map (createParameterItem host) elements) with
  | Return items =>
      fst (appendParameters host elements w) = Return tt /\
      parametersList (now (snd (appendParameters host elements w)))
        = parametersList (now w) ++ items
  | Throw e => fst (appendParameters host elements w) = Throw e
  end.
Proof.
  revert w. induction elements as [| param rest IH]; intro w.
  - simpl. rewrite app_nil_r. auto.
  - rewrite appendParameters_cons. cbn [map sequence].
    destruct (createParameterItem host param) as [item | e]; cbn [and_then]; [| reflexivity].
    specialize (IH (push (fun st => set_parametersList (parametersList st ++ [item]) st) w)).
    destruct (sequence (map (createParameterItem host) rest)) as [items | e];
      cbn [and_then]; [| exact IH].
    destruct IH as [IH1 IH2]. split; [exact IH1 |].
    rewrite IH2. page_simpl. rewrite <- app_assoc. reflexivity.
Qed.

Lemma appendParameters_preserves (P : UI -> Prop) (elements : list JsValue) :
  (forall v st, P st -> P (set_parametersList v st)) ->
  preserves P (appendParameters host elements).
Proof.
  intro H. unfold appendParameters.
  apply preserves_forEach. intro param. preserving.
Qed.

Lemma displayResults_preserves (P : UI -> Prop) (analysis : JsValue) :
  (forall v st, P st -> P (set_resultsSection_hidden v st)) ->
  (forall v st, P st -> P (set_scoreValue_textContent v st)) ->
  (forall v st, P st -> P (set_progressFill_width v st)) ->
  (forall v st, P st -> P (set_parametersList v st)) ->
  preserves P (displayResults host analysis).
Proof.
  intros H1 H2 H3 H4. unfold displayResults.
  apply preserves_bind; [apply preserves_modify; auto | intros _].
  apply preserves_bind; [apply preserves_lift | intro raw].
  apply preserves_bind; [apply preserves_modify; auto | intros _].
  apply preserves_bind.
  { apply preserves_modify. intros st Hst. unfold set_style_width.
    destruct (Regex.test _ _); auto. }
  intros _.
  apply preserves_bind; [apply preserves_modify; auto | intros _].
  apply preserves_bind; [apply preserves_lift | intro parameters].
  destruct parameters; try apply preserves_throw.
  apply (appendParameters_preserves P elements H4).
Qed.

(** The pages of an attempt differ from the page it starts on only in what
    the request, the rendering and the dialog change. *)
Lemma attempt_preserves (P : UI -> Prop) (net : Network) (url : jsstr) :
  (forall v st, P st -> P (set_requests v st)) ->
  (forall v st, P st -> P (set_console v st)) ->
  (forall v st, P st -> P (set_resultsSection_hidden v st)) ->
  (forall v st, P st -> P (set_scoreValue_textContent v st)) ->
  (forall v st, P st -> P (set_progressFill_width v st)) ->
  (forall v st, P st -> P (set_parametersList v st)) ->
  (forall a b st, P st -> P (set_body_classes a b st)) ->
  (forall v st, P st -> P (set_alerts v st)) ->
  preserves P (attempt host net url).
Proof.
  intros H1 H2 H3 H4 H5 H6 H7 H8. unfold attempt.
  apply preserves_try_catch.
  - apply preserves_bind.
    + unfold performAnalysis, fetch, console_error. preserving.
    + intro analysis. apply preserves_bind; [apply displayResults_preserves; auto | intros _].
      apply preserves_modify; auto.
  - intros _. apply preserves_modify; auto.
Qed.

(** Whether rendering throws depends on the response alone. *)
Lemma displayResults_result (analysis : JsValue) (w w' : World) :
  fst (displayResults host analysis w) = fst (displayResults host analysis w').
Proof.
  rewrite !displayResults_run. cbv zeta.
  destruct (and_then _ _) as [raw | e]; [| reflexivity].
  destruct (Get analysis "parameters") as [[] | e]; try reflexivity.
  match goal with |- fst (appendParameters _ _ ?a) = fst (appendParameters _ _ ?b) =>
    pose proof (appendParameters_run elements a) as Ha;
    pose proof (appendParameters_run elements b) as Hb end.
  destruct (sequence _) as [items | e].
  - destruct Ha as [-> _], Hb as [-> _]. reflexivity.
  - rewrite Ha, Hb. reflexivity.
Qed.

Lemma displayResults_parameters (response : JsValue) (raw : float)
    (elements : list JsValue) (items : list Element) (w : World) :
  (let? v := Get response "score" in ToNumber host v) = Return raw ->
  Get response "parameters" = Return (JArray elements) ->
  Forall2 (fun param item => createParameterItem host param = Return item) elements items ->
  fst (displayResults host response w) = Return tt /\
  parametersList (now (snd (displayResults host response w))) = items.
Proof.
  intros Hscore Hparams Hitems.
  rewrite displayResults_run, Hscore, Hparams. cbv zeta.
  match goal with |- context [appendParameters host elements ?w4] =>
    pose proof (appendParameters_run elements w4) as Hrun end.
  rewrite (sequence_of_Forall2 _ _ _ Hitems) in Hrun.
  destruct Hrun as [H1 H2]. split; [exact H1 |].
  rewrite H2. reflexivity.
Qed.

(** Lines 98-102 for a score that converts to the number [raw], whatever
    the rest of the rendering does. *)
Lemma displayResults_score_fields (response : JsValue) (raw : float) (w : World) :
  (let? v := Get response "score" in ToNumber host v) = Return raw ->
  let score := Math_round (raw / 10)%float in
  let st' := now (snd (displayResults host response w)) in
  scoreValue_textContent st' = Number_toString host score ++ js "/10" /\
  progressFill_width st' =
    progressFill_width (set_style_width (Number_toString host (score * 10)%float ++ js "%") (now w)).
Proof.
  intros Hscore score st'. subst st'.
  rewrite displayResults_run, Hscore. cbv zeta. fold score.
  set (text := Number_toString host score ++ js "/10").
  set (width := Number_toString host (score * 10)%float ++ js "%").
  set (w4 := push (set_parametersList []) _).
  assert (H4 : scoreValue_textContent (now w4) = text /\
               progressFill_width (now w4) = progressFill_width (set_style_width width (now w))).
  { subst w4. unfold set_style_width.
    destruct (Regex.test CSS_PERCENTAGE width); split; reflexivity. }
  destruct (Get response "parameters") as [[] | e]; try exact H4.
  apply (appendParameters_preserves
           (fun s => scoreValue_textContent s = text /\
                     progressFill_width s = progressFill_width (set_style_width width (now w)))).
  - intros v st H. exact H.
  - exact H4.
Qed.

(** The arithmetic of lines 98-102 on the integers from 0 to 100. *)
Lemma score_arithmetic (s : N) :
  (s <= 100)%N ->
  let shown := ((s + 5) / 10)%N in
  let score := Math_round (number_of_N s / 10)%float in
  score = number_of_N shown /\
  Number_toString host score = decimal shown /\
  Number_toString host (score * 10)%float = decimal (shown * 10) /\
  Regex.test CSS_PERCENTAGE (decimal (shown * 10) ++ js "%") = true.
Proof.
  revert s. apply N_up_to_100.
  cbv [seq map].
  repeat (constructor; [vm_compute; repeat split; reflexivity |]).
  constructor.
Qed.

(** The texts of lines 99 and 101 for a rounded score from 0 to 10. *)
Lemma tenths_arithmetic (k : N) :
  (k <= 10)%N ->
  (number_of_N k =? number_of_N k)%float = true /\
  Number_toString host (number_of_N k) = decimal k /\
  Number_toString host (number_of_N k * 10)%float = decimal (k * 10) /\
  Regex.test CSS_PERCENTAGE (decimal (k * 10) ++ js "%") = true.
Proof.
  revert k. apply N_up_to_10.
  cbv [seq map].
  repeat (constructor; [vm_compute; repeat split; reflexivity |]).
  constructor.
Qed.

(** The same for the negative zero, which a score of [-0] gives. *)
Lemma neg_zero_arithmetic :
  (neg_zero =? number_of_N 0)%float = true /\
  Number_toString host neg_zero = decimal 0 /\
  Number_toString host (neg_zero * 10)%float = decimal (0 * 10).
Proof. vm_compute. repeat split; reflexivity. Qed.

(** The call with the events handled meanwhile, statement by statement. *)
Lemma handleAnalyze_during_run (pending reading : M unit) (net : Network) (w : World) :
  handleAnalyze_during host pending reading net w =
  let url := trim (urlInput_value (now w)) in
  if is_empty url then showError (js "Please enter a URL") w
  else
    let w' :=
      snd (attempt_during host pending reading net url (push (set_loading true) w)) in
    (Return tt, push (set_loading false) w').
Proof.
  unfold handleAnalyze_during, attempt_during, bind at 1, gets. cbv zeta.
  destruct (is_empty _); [reflexivity |].
  unfold try_finally, try_catch, bind at 1, showLoading, modify. cbn [fst snd].
  match goal with |- context [bind ?m ?k ?w] => destruct (bind m k w) as [[[] | e] w1] end;
    reflexivity.
Qed.

Lemma attempt_alone (net : Network) (url : jsstr) (w : World) :
  attempt_during host (ret tt) (ret tt) net url w = attempt host net url w.
Proof.
  unfold attempt_during, attempt, performAnalysis_during, performAnalysis, fetch_during, fetch,
    meanwhile, try_catch, bind, ret, modify, lift, throw, console_error.
  cbn [fst snd].
  destruct (net _) as [response | e]; [| reflexivity].
  destruct (negb (resp_ok response));
    [destruct (resp_text response) | destruct (resp_json response)]; reflexivity.
Qed.

(** With no event handled meanwhile the call is [handleAnalyze]. *)
Lemma handleAnalyze_alone (net : Network) (w : World) :
  handleAnalyze_during host (ret tt) (ret tt) net w = handleAnalyze host net w.
Proof.
  rewrite handleAnalyze_during_run, handleAnalyze_run. cbv zeta.
  rewrite attempt_alone. reflexivity.
Qed.

Lemma attempt_during_preserves (P : UI -> Prop) (pending reading : M unit) (net : Network)
    (url : jsstr) :
  (forall v st, P st -> P (set_requests v st)) ->
  (forall v st, P st -> P (set_console v st)) ->
  (forall v st, P st -> P (set_resultsSection_hidden v st)) ->
  (forall v st, P st -> P (set_scoreValue_textContent v st)) ->
  (forall v st, P st -> P (set_progressFill_width v st)) ->
  (forall v st, P st -> P (set_parametersList v st)) ->
  (forall a b st, P st -> P (set_body_classes a b st)) ->
  (forall v st, P st -> P (set_alerts v st)) ->
  preserves P pending -> preserves P reading ->
  preserves P (attempt_during host pending reading net url).
Proof.
  intros H1 H2 H3 H4 H5 H6 H7 H8 Hp Hr. unfold attempt_during.
  apply (preserves_meanwhile P) in Hp. apply (preserves_meanwhile P) in Hr.
  apply preserves_try_catch.
  - apply preserves_bind.
    + unfold performAnalysis_during, fetch_during, console_error.
      repeat (preserving; try exact Hp; try exact Hr).
    + intro analysis. apply preserves_bind; [apply displayResults_preserves; auto | intros _].
      apply preserves_modify; auto.
  - intros _. apply preserves_modify; auto.
Qed.

(* ===================================================================== *)
(** * Properties of the analysis workflow *)
(* ===================================================================== *)

(** C1, as the code has it. [handleAnalyze] rejects only a field that is
    empty once trimmed: it then shows the message "Please enter a URL" in
    one step and changes nothing else, so no request is sent. For any other
    text, matching the pattern or not, the request for the trimmed text is
    sent. *)
Theorem handleAnalyze_guards_empty_url (net : Network) (st : UI) :
  let url := trim (urlInput_value st) in
  let st' := final (handleAnalyze host net) st in
  (is_empty url = true ->
   result (handleAnalyze host net) st = Return tt /\
   states (handleAnalyze host net) st = [st] /\
   st' = set_alerts (alerts st ++ [js "Please enter a URL"]) st) /\
  (is_empty url = false ->
   requests st' = requests st ++ [predict_request url]).
Proof.
  intros url st'. subst st'. unfold result, final, states.
  rewrite handleAnalyze_run. unfold start. cbn [now earlier fst snd]. cbv zeta. fold url.
  split; intros ->.
  - repeat split.
  - rewrite attempt_run, performAnalysis_run. cbv zeta.
    set (w1 := push (fun st0 => set_requests _ st0) _).
    assert (H1 : requests (now w1) = requests st ++ [predict_request url]) by reflexivity.
    destruct (analysis_of net url) as [analysis | e]; [| exact H1].
    destruct (displayResults_preserves
                (fun s => requests s = requests st ++ [predict_request url])
                analysis ltac:(frame) ltac:(frame) ltac:(frame) ltac:(frame) w1 H1)
      as [H2 _].
    destruct (displayResults host analysis w1) as [[[] | e] w2]; exact H2.
Qed.

(** C2. The verdict of line 90 on the handler's [url] is true exactly when
    [url] is not empty and the pattern matches it; it is true of
    "example.com" and "https://a.b/x?y=1" and false of "" and
    "not a url!!"; it is a function of [url] alone. After [validateInput]
    the trigger's disabled flag is the negation of the verdict on the
    trimmed text of the field, the field is as before, and nothing else on
    the page has changed. *)
Theorem isValid_spec :
  (forall url, isValid url = true <-> url <> [] /\ Regex.Matches URL_PATTERN url) /\
  isValid (js "example.com") = true /\
  isValid (js "https://a.b/x?y=1") = true /\
  isValid (js "") = false /\
  isValid (js "not a url!!") = false /\
  (forall st,
     result validateInput st = Return tt /\
     analyzeBtn_disabled (final validateInput st)
       = negb (isValid (trim (urlInput_value st))) /\
     urlInput_value (final validateInput st) = urlInput_value st /\
     final validateInput st
       = set_analyzeBtn_disabled (negb (isValid (trim (urlInput_value st)))) st).
Proof.
  split; [| repeat split].
  intro url. unfold isValid.
  rewrite andb_true_iff, negb_true_iff, is_empty_false, RegexFacts.test_Matches.
  reflexivity.
Qed.

(** C3. For a response whose score is the number [score], the text shown
    is [Math.round(score / 10)] followed by "/10" and the width assigned to
    the bar is that number times 10 followed by "%", whether or not the
    parameters can be rendered afterwards. For every number [score] from 0
    to 100, integer or not, the number shown is an integer [k] from 0 to
    10: the text is [k] in decimal digits followed by "/10" and the width
    of the bar is set to [10 * k] in decimal digits followed by "%". When
    [score] is an integer [s] from 0 to 100, [k] is [s / 10] rounded to the
    nearest integer, a half going up. *)
Theorem displayResults_score (response : JsValue) (score : float) (st : UI) :
  Get response "score" = Return (JNumber score) ->
  let shown := Math_round (score / 10)%float in
  let st' := final (displayResults host response) st in
  scoreValue_textContent st' = Number_toString host shown ++ js "/10" /\
  progressFill_width st' =
    progressFill_width (set_style_width (Number_toString host (shown * 10)%float ++ js "%") st) /\
  ((0 <=? score)%float = true -> (score <=? 100)%float = true ->
   exists k : N,
     (k <= 10)%N /\
     (shown =? number_of_N k)%float = true /\
     scoreValue_textContent st' = decimal k ++ js "/10" /\
     progressFill_width st' = decimal (k * 10) ++ js "%") /\
  forall s : N, (s <= 100)%N -> score = number_of_N s ->
    let k := ((s + 5) / 10)%N in
    shown = number_of_N k /\
    (k <= 10)%N /\
    scoreValue_textContent st' = decimal k ++ js "/10" /\
    progressFill_width st' = decimal (k * 10) ++ js "%".
Proof.
  intros Hscore shown st'.
  assert (Hraw : (let? v := Get response "score" in ToNumber host v) = Return score).
  { rewrite Hscore. reflexivity. }
  destruct (displayResults_score_fields response score (start st) Hraw) as [H1 H2].
  cbv zeta in H1, H2. fold (final (displayResults host response) st) in H1, H2.
  fold st' in H1, H2. fold shown in H1, H2.
  split; [exact H1 |]. split; [exact H2 |]. split.
  { intros H0 H100.
    destruct (Math_round_tenth score H0 H100) as (k & Hk & [Ek | [-> Ek]]);
      fold shown in Ek.
    - destruct (tenths_arithmetic k Hk) as (Eeq & Etext & Ewidth & Ecss).
      exists k. rewrite H1, H2, Ek. unfold set_style_width.
      rewrite Etext, Ewidth, Ecss.
      split; [exact Hk |]. split; [exact Eeq |]. split; reflexivity.
    - destruct neg_zero_arithmetic as (Eeq & Etext & Ewidth).
      destruct (tenths_arithmetic 0 ltac:(lia)) as (_ & _ & _ & Ecss).
      exists 0%N. rewrite H1, H2, Ek. unfold set_style_width.
      rewrite Etext, Ewidth, Ecss.
      split; [lia |]. split; [exact Eeq |]. split; reflexivity. }
  intros s Hs -> k.
  destruct (score_arithmetic s Hs) as (Eround & Etext & Ewidth & Ecss).
  fold k in Eround, Etext, Ewidth, Ecss. fold shown in Eround, Etext, Ewidth.
  split; [exact Eround |]. split.
  { assert (k < 11)%N by (apply N.Div0.div_lt_upper_bound; lia). lia. }
  split.
  - rewrite H1, Etext. reflexivity.
  - rewrite H2, Ewidth. unfold set_style_width. rewrite Ecss. reflexivity.
Qed.

(** The pages of a call up to its last step, when the handlers run
    meanwhile keep the trigger disabled and the indicator shown. *)
Lemma handleAnalyze_during_Loading (pending reading : M unit) (net : Network) (st : UI) :
  is_empty (trim (urlInput_value st)) = false ->
  preserves Loading pending -> preserves Loading reading ->
  exists loading,
    states (handleAnalyze_during host pending reading net) st = st :: loading /\
    loading <> [] /\ Forall Loading loading.
Proof.
  intros Hurl Hp Hr. unfold states. rewrite handleAnalyze_during_run.
  unfold start. cbn [now earlier fst snd]. cbv zeta. rewrite Hurl.
  cbn [push now earlier fst snd].
  set (url := trim (urlInput_value st)).
  destruct (attempt_during_preserves Loading pending reading net url
              ltac:(unfold Loading; frame) ltac:(unfold Loading; frame)
              ltac:(unfold Loading; frame) ltac:(unfold Loading; frame)
              ltac:(unfold Loading; frame) ltac:(unfold Loading; frame)
              ltac:(unfold Loading; frame) ltac:(unfold Loading; frame)
              Hp Hr (set_loading true st, [st]))
    as [Hnow (new & Enew & Hnew)].
  { split; reflexivity. }
  cbn [earlier snd] in Enew. unfold push, now, earlier in *. cbn [fst snd] in *.
  rewrite Enew.
  exists (rev new ++
          [fst (snd (attempt_during host pending reading net url
                       (set_loading true st, [st])))]).
  split; [| split].
  - simpl. rewrite rev_app_distr. reflexivity.
  - intro E. apply app_eq_nil in E as [_ E]. discriminate.
  - apply Forall_app. split; [apply Forall_rev; assumption |].
    constructor; [assumption | constructor].
Qed.

(** C4, as the code has it. A call of [handleAnalyze] on a field that is
    not empty once trimmed returns normally, and on the page it leaves the
    loading indicator is hidden and the trigger enabled: whatever the
    request and the rendering do, and whatever the page handles while the
    call is suspended. The trigger is disabled and the indicator shows on
    every page from the first step of the call to its last but one when
    the handlers run meanwhile keep them so, and so when none runs; an
    [input] event handled meanwhile does not
    ([handleAnalyze_input_while_pending]). *)
Theorem handleAnalyze_leaves_Loading (pending reading : M unit) (net : Network) (st : UI) :
  is_empty (trim (urlInput_value st)) = false ->
  let call := handleAnalyze_during host pending reading net in
  result call st = Return tt /\
  analyzeBtn_disabled (final call st) = false /\
  loader_hidden (final call st) = true /\
  (preserves Loading pending -> preserves Loading reading ->
   exists loading,
     states call st = st :: loading /\
     loading <> [] /\ Forall Loading loading) /\
  (exists loading,
     states (handleAnalyze host net) st = st :: loading /\
     loading <> [] /\ Forall Loading loading).
Proof.
  intros Hurl call.
  split; [| split; [| split; [| split]]].
  - subst call. unfold result. rewrite handleAnalyze_during_run.
    unfold start. cbn [now fst]. cbv zeta. rewrite Hurl. reflexivity.
  - subst call. unfold final. rewrite handleAnalyze_during_run.
    unfold start. cbn [now fst]. cbv zeta. rewrite Hurl. reflexivity.
  - subst call. unfold final. rewrite handleAnalyze_during_run.
    unfold start. cbn [now fst]. cbv zeta. rewrite Hurl. reflexivity.
  - intros Hp Hr. exact (handleAnalyze_during_Loading pending reading net st Hurl Hp Hr).
  - destruct (handleAnalyze_during_Loading (ret tt) (ret tt) net st Hurl
                (preserves_ret Loading tt) (preserves_ret Loading tt))
      as (loading & E & Hne & Hall).
    exists loading. split; [| split; assumption].
    rewrite <- E. unfold states. rewrite handleAnalyze_alone. reflexivity.
Qed.

(** C5. When the score of a response converts to a number and each of its
    parameters renders to an item, rendering it succeeds and leaves exactly
    these items, in the order of the array, as the children of the list:
    on any page, and so on the page the rendering of an earlier response
    left; for an empty array the list is empty. *)
Theorem displayResults_rebuilds_parameters (previous response : JsValue) (raw : float)
    (elements : list JsValue) (items : list Element) (st : UI) :
  (let? v := Get response "score" in ToNumber host v) = Return raw ->
  Get response "parameters" = Return (JArray elements) ->
  Forall2 (fun param item => createParameterItem host param = Return item) elements items ->
  let first := final (displayResults host previous) st in
  result (displayResults host response) st = Return tt /\
  parametersList (final (displayResults host response) st) = items /\
  result (displayResults host response) first = Return tt /\
  parametersList (final (displayResults host response) first) = items /\
  (elements = [] -> items = []).
Proof.
  intros Hscore Hparams Hitems first. unfold result, final.
  destruct (displayResults_parameters _ _ _ _ (start st) Hscore Hparams Hitems) as [H1 H2].
  destruct (displayResults_parameters _ _ _ _ (start first) Hscore Hparams Hitems) as [H3 H4].
  repeat split; try assumption.
  intros ->. inversion Hitems. reflexivity.
Qed.

(** C6. The element made for a parameter with the strings [icon], [name]
    and [status] has the markup of the template with [icon] and [name] as
    they are, [status] as it is in the class, and as label [status] with its
    first code unit in upper case, an ASCII letter becoming its capital.
    The response with score 65 and the single parameter (lock emoji, HTTPS,
    safe) shows "7/10", the width "70%" and one item with the name HTTPS
    and the label Safe. *)
Theorem createParameterItem_markup (icon name status : jsstr) :
  let label :=
    match status with
    | [] => []
    | c :: rest => toUpperCase host [c] ++ rest
    end in
  createParameterItem host (ParameterResult icon name status)
  = Return
      {| className := js "parameter-item";
         innerHTML :=
           newline
           ++ js "        <div class=" ++ dquote ++ js "parameter-name" ++ dquote ++ js ">"
           ++ newline
           ++ js "          <span>" ++ icon ++ js "</span>" ++ newline
           ++ js "          <span>" ++ name ++ js "</span>" ++ newline
           ++ js "        </div>" ++ newline
           ++ js "        <span class=" ++ dquote ++ js "parameter-status status-" ++ status
           ++ dquote ++ js ">" ++ label ++ js "</span>" ++ newline
           ++ js "      " |} /\
  (forall c rest, status = c :: rest -> (c < 0x80)%N -> label = ascii_upper c :: rest) /\
  let lock := [0xD83D; 0xDD12]%N in
  let response := AnalysisResponse 65 [ParameterResult lock (js "HTTPS") (js "safe")] in
  let st' :=
    final (handleAnalyze host (server 200 [] (Return response))) (page (js "http://test.com")) in
  scoreValue_textContent st' = js "7/10" /\
  progressFill_width st' = js "70%" /\
  parametersList st'
  = [{| className := js "parameter-item";
        innerHTML :=
          newline
          ++ js "        <div class=" ++ dquote ++ js "parameter-name" ++ dquote ++ js ">"
          ++ newline
          ++ js "          <span>" ++ lock ++ js "</span>" ++ newline
          ++ js "          <span>HTTPS</span>" ++ newline
          ++ js "        </div>" ++ newline
          ++ js "        <span class=" ++ dquote ++ js "parameter-status status-safe"
          ++ dquote ++ js ">Safe</span>" ++ newline
          ++ js "      " |}].
Proof.
  intro label. split; [| split].
  - subst label. destruct status as [| c rest]; vm_compute; reflexivity.
  - intros c rest -> Hc. subst label. unfold toUpperCase. cbn [flat_map].
    apply N.ltb_lt in Hc. rewrite Hc. reflexivity.
  - vm_compute. repeat split.
Qed.

(** C7. When the endpoint answers with a status outside 200-299 and a body
    that reads as [text], [performAnalysis] throws an error whose message
    holds the status and [text], and logs it; [handleAnalyze] catches it,
    returns normally and shows one dialog, the fixed message "Analysis
    failed. Please try again.". *)
Theorem handleAnalyze_http_error (net : Network) (response : Response) (text : jsstr)
    (st : UI) :
  let url := trim (urlInput_value st) in
  is_empty url = false ->
  net (predict_request url) = Return response ->
  resp_ok response = false ->
  resp_text response = Return text ->
  let error :=
    Error (js "HTTP error " ++ decimal (resp_status response) ++ js ": " ++ text) in
  result (performAnalysis net url) (set_loading true st) = Throw error /\
  result (handleAnalyze host net) st = Return tt /\
  alerts (final (handleAnalyze host net) st)
    = alerts st ++ [js "Analysis failed. Please try again."] /\
  console (final (handleAnalyze host net) st)
    = console st ++ [(js "API call failed:", error)].
Proof.
  intros url Hurl Hnet Hok Htext error.
  assert (Hof : analysis_of net url = Throw error).
  { unfold analysis_of. rewrite Hnet. cbn [and_then]. rewrite Hok. cbn [negb].
    rewrite Htext. reflexivity. }
  unfold result, final.
  rewrite handleAnalyze_run. unfold start. cbn [now earlier fst snd]. cbv zeta.
  fold url. rewrite Hurl.
  rewrite attempt_run, !performAnalysis_run, Hof. cbv zeta.
  repeat split.
Qed.

(** C8. On load, when the first tab of the query has a URL that is not
    blank and the stored [autoAnalyze] is not [false] ([true], or absent),
    the field holds the URL and one timer is armed: [handleAnalyze] after
    500 ms. When the stored value is [false], or when the query gives no
    URL to fill in, no timer is armed (and in the second case the field is
    untouched). *)
Theorem autoFillURL_schedules_analysis (query : Outcome (list Tab))
    (storage : list (jsstr * JsValue)) (net : Network) (st : UI) :
  let st' := final (autoFillURL_on_load query storage) st in
  let autoAnalyze := lookup (js "autoAnalyze") storage in
  (forall url rest,
     query = Return ({| tab_url := Some url |} :: rest) ->
     is_empty (trim url) = false ->
     autoAnalyze <> Some (JBool false) ->
     urlInput_value st' = url /\
     timers st' = timers st ++ [auto_analyze_timer] /\
     timer_delay auto_analyze_timer = 500%N /\
     fire host net auto_analyze_timer = handleAnalyze host net) /\
  (autoAnalyze = Some (JBool false) -> timers st' = timers st) /\
  ((forall url rest, query = Return ({| tab_url := Some url |} :: rest) -> url = []) ->
   urlInput_value st' = urlInput_value st /\ timers st' = timers st).
Proof.
  intros st' autoAnalyze. subst st'.
  unfold final, autoFillURL_on_load, autoFillURL, autoAnalyze_callback, validateInput,
    chrome_storage_sync_get, Get, setTimeout, console_error,
    try_catch, bind, lift, gets, modify, ret, start.
  cbn [fst snd now earlier].
  rewrite lookup_storage_get. fold autoAnalyze.
  split; [| split].
  - intros url rest -> Hurl Hpref.
    destruct url as [| c url']; [discriminate |].
    cbn [is_empty]. page_simpl. rewrite Hurl.
    destruct autoAnalyze as [[| | [] | | | |] |]; try congruence; repeat split.
  - intros ->.
    destruct query as [[| [[[| c url'] |]] rest] | e]; page_simpl; reflexivity.
  - intros Hnone.
    destruct query as [[| [[[| c url'] |]] rest] | e]; page_simpl; try (split; reflexivity).
    specialize (Hnone _ _ eq_refl). discriminate.
Qed.

(** C9. A call of [handleAnalyze] on a field that is not empty once trimmed
    leaves the trigger enabled and the field as it was, so that when the
    text fails validation the flag is no longer the negation of the
    verdict, the relation [validateInput] sets up. *)
Theorem handleAnalyze_enables_trigger (net : Network) (st : UI) :
  is_empty (trim (urlInput_value st)) = false ->
  let st' := final (handleAnalyze host net) st in
  analyzeBtn_disabled st' = false /\
  urlInput_value st' = urlInput_value st /\
  (isValid (trim (urlInput_value st')) = false ->
   analyzeBtn_disabled st' <> negb (isValid (trim (urlInput_value st')))).
Proof.
  intros Hurl st'. subst st'. unfold final.
  rewrite handleAnalyze_run. unfold start. cbn [now earlier fst snd]. cbv zeta. rewrite Hurl.
  destruct (attempt_preserves (fun s => urlInput_value s = urlInput_value st)
              net (trim (urlInput_value st))
              ltac:(frame) ltac:(frame) ltac:(frame) ltac:(frame)
              ltac:(frame) ltac:(frame) ltac:(frame) ltac:(frame)
              (push (set_loading true) (st, [])))
    as [Hvalue _]; [reflexivity |].
  page_simpl. rewrite Hvalue.
  split; [reflexivity |]. split; [reflexivity |].
  intros ->. discriminate.
Qed.

(** C10. When the endpoint answers with success and a body whose rendering
    throws, [handleAnalyze] returns normally, shows the fixed message
    "Analysis failed. Please try again.", and leaves the loading indicator
    hidden and the trigger enabled; the popup is not expanded. *)
Theorem handleAnalyze_catches_rendering_error (net : Network) (response : Response)
    (analysis : JsValue) (error : JsError) (st : UI) :
  let url := trim (urlInput_value st) in
  is_empty url = false ->
  net (predict_request url) = Return response ->
  resp_ok response = true ->
  resp_json response = Return analysis ->
  result (displayResults host analysis) st = Throw error ->
  let st' := final (handleAnalyze host net) st in
  result (handleAnalyze host net) st = Return tt /\
  alerts st' = alerts st ++ [js "Analysis failed. Please try again."] /\
  loader_hidden st' = true /\
  analyzeBtn_disabled st' = false /\
  body_expanded st' = body_expanded st.
Proof.
  intros url Hurl Hnet Hok Hjson Hthrow st'.
  assert (Hof : analysis_of net url = Return analysis).
  { unfold analysis_of. rewrite Hnet. cbn [and_then]. rewrite Hok. exact Hjson. }
  subst st'. unfold result, final in *.
  rewrite handleAnalyze_run. unfold start. cbn [now earlier fst snd]. cbv zeta.
  fold url. rewrite Hurl.
  rewrite attempt_run, performAnalysis_run, Hof. cbv zeta.
  set (w1 := push (fun st0 => set_requests _ st0) _).
  rewrite (displayResults_result analysis _ w1) in Hthrow.
  destruct (displayResults_preserves
              (fun s => alerts s = alerts st /\ body_expanded s = body_expanded st)
              analysis ltac:(frame) ltac:(frame) ltac:(frame) ltac:(frame) w1)
    as [[Halerts Hbody] _].
  { split; reflexivity. }
  destruct (displayResults host analysis w1) as [[[] | e] w2]; [discriminate |].
  page_simpl. rewrite Halerts, Hbody. repeat split.
Qed.

End Properties.

(* ===================================================================== *)
(** * Concrete runs *)
(* ===================================================================== *)

(** The field holds a text that fails validation; the endpoint answers with
    a well-formed response. [handleAnalyze] sends the request and shows no
    message. *)
Lemma handleAnalyze_sends_invalid_url :
  let st := page (js "not a url!!") in
  let net := server 200 [] (Return (AnalysisResponse 50 [])) in
  isValid (trim (urlInput_value st)) = false /\
  requests (final (handleAnalyze no_host net) st) = [predict_request (js "not a url!!")] /\
  alerts (final (handleAnalyze no_host net) st) = [].
Proof. vm_compute. repeat split. Qed.

(** The popup opens on an internal page of the browser: the URL fills the
    field, fails validation and disables the trigger, and the timer is armed
    all the same; when it fires the request is sent and the trigger ends up
    enabled. *)
Example auto_analyze_of_internal_page :
  let query := Return [{| tab_url := Some (js "chrome://extensions/") |}] in
  let loaded := final (autoFillURL_on_load query []) (page []) in
  let net := server 200 [] (Return (AnalysisResponse 50 [])) in
  let analyzed := final (fire no_host net auto_analyze_timer) loaded in
  isValid (trim (urlInput_value loaded)) = false /\
  analyzeBtn_disabled loaded = true /\
  timers loaded = [auto_analyze_timer] /\
  requests analyzed = [predict_request (js "chrome://extensions/")] /\
  analyzeBtn_disabled analyzed = false.
Proof. vm_compute. repeat split. Qed.

(** A field with blanks only is rejected with the message and no request. *)
Example handleAnalyze_blank_field :
  let st := page (js "   ") in
  let net := server 200 [] (Return (AnalysisResponse 50 [])) in
  final (handleAnalyze no_host net) st = set_alerts [js "Please enter a URL"] st /\
  requests (final (handleAnalyze no_host net) st) = [].
Proof. vm_compute. repeat split. Qed.

(** Scores 77 and 5: "8/10" with "80%", and "1/10" with "10%"; the score
    99.5 shows an integer up to 10 and the width that goes with it. *)
Lemma displayResults_score_77_and_5 :
  (scoreValue_textContent (final (displayResults no_host (AnalysisResponse 77 [])) (page []))
   = js "8/10" /\
   progressFill_width (final (displayResults no_host (AnalysisResponse 77 [])) (page []))
   = js "80%") /\
  (scoreValue_textContent (final (displayResults no_host (AnalysisResponse 5 [])) (page []))
   = js "1/10" /\
   progressFill_width (final (displayResults no_host (AnalysisResponse 5 [])) (page []))
   = js "10%") /\
  (exists k : N,
     (k <= 10)%N /\
     scoreValue_textContent
       (final (displayResults no_host (AnalysisResponse 99.5 [])) (page []))
     = decimal k ++ js "/10" /\
     progressFill_width
       (final (displayResults no_host (AnalysisResponse 99.5 [])) (page []))
     = decimal (k * 10) ++ js "%").
Proof.
  split; [| split].
  - destruct (displayResults_score no_host (AnalysisResponse 77 []) 77 (page []) eq_refl)
      as (_ & _ & _ & H).
    destruct (H 77%N ltac:(lia) eq_refl) as (_ & _ & H1 & H2).
    split; [exact H1 | exact H2].
  - destruct (displayResults_score no_host (AnalysisResponse 5 []) 5 (page []) eq_refl)
      as (_ & _ & _ & H).
    destruct (H 5%N ltac:(lia) eq_refl) as (_ & _ & H1 & H2).
    split; [exact H1 | exact H2].
  - destruct (displayResults_score no_host (AnalysisResponse 99.5 []) 99.5 (page []) eq_refl)
      as (_ & _ & H & _).
    destruct (H eq_refl eq_refl) as (k & Hk & _ & H1 & H2).
    exists k. split; [exact Hk | split; [exact H1 | exact H2]].
Defined.

(** An analysis of "http://test.com" during which the user types another
    address: the call returns and leaves the trigger enabled and the
    indicator hidden. With no event meanwhile, the trigger is disabled and
    the indicator shows on every page before the last. *)
Lemma handleAnalyze_leaves_Loading_run :
  let st := page (js "http://test.com") in
  let net := server 200 [] (Return (AnalysisResponse 65 [])) in
  let call := handleAnalyze_during no_host (input_event (js "http://test.org")) (ret tt) net in
  result call st = Return tt /\
  analyzeBtn_disabled (final call st) = false /\
  loader_hidden (final call st) = true /\
  exists loading,
    states (handleAnalyze no_host net) st = st :: loading /\
    loading <> [] /\ Forall Loading loading.
Proof.
  intros st net call.
  destruct (handleAnalyze_leaves_Loading no_host (input_event (js "http://test.org"))
              (ret tt) net st eq_refl)
    as (H1 & H2 & H3 & _ & H5).
  split; [exact H1 | split; [exact H2 | split; [exact H3 | exact H5]]].
Defined.

(** The user edits the field while the request for "example.com" is
    pending: on a page of the call the request is sent, the indicator shows
    and the trigger is enabled. *)
Lemma handleAnalyze_input_while_pending :
  let st := page (js "example.com") in
  let net := server 200 [] (Return (AnalysisResponse 65 [])) in
  let call := handleAnalyze_during no_host (input_event (js "example.org")) (ret tt) net in
  result call st = Return tt /\
  Exists (fun during =>
            requests during = [predict_request (js "example.com")] /\
            loader_hidden during = false /\
            analyzeBtn_disabled during = false)
    (states call st).
Proof.
  intros st net call. split; [reflexivity |].
  vm_compute.
  repeat first
    [ apply Exists_cons_hd; split; [reflexivity | split; reflexivity]
    | apply Exists_cons_tl ].
Qed.

(** A response with one parameter rendered after a response with two. *)
Lemma displayResults_second_response :
  let previous :=
    AnalysisResponse 65
      [ParameterResult (js "a") (js "HTTPS") (js "safe");
       ParameterResult (js "b") (js "Redirects") (js "danger")] in
  let response :=
    AnalysisResponse 40 [ParameterResult (js "c") (js "Domain age") (js "warning")] in
  let item :=
    {| className := js "parameter-item";
       innerHTML := parameter_markup (js "c") (js "Domain age") (js "warning") (js "Warning") |} in
  List.length (parametersList (final (displayResults no_host previous) (page []))) = 2 /\
  parametersList
    (final (displayResults no_host response) (final (displayResults no_host previous) (page [])))
  = [item].
Proof.
  intros previous response item.
  split; [reflexivity |].
  destruct (displayResults_rebuilds_parameters no_host previous response 40
              [ParameterResult (js "c") (js "Domain age") (js "warning")] [item] (page []))
    as (_ & _ & _ & H & _).
  - reflexivity.
  - reflexivity.
  - constructor; [reflexivity | constructor].
  - exact H.
Defined.

(** A 500 answer: the error holds "500" and the body, the dialog does not. *)
Lemma handleAnalyze_http_error_500 :
  let st := page (js "example.com") in
  let net := server 500 (js "Internal Server Error") (Throw SyntaxError) in
  result (performAnalysis net (js "example.com")) (set_loading true st)
  = Throw (Error (js "HTTP error 500: Internal Server Error")) /\
  alerts (final (handleAnalyze no_host net) st) = [js "Analysis failed. Please try again."].
Proof.
  intros st net.
  destruct (handleAnalyze_http_error no_host net
              {| resp_status := 500; resp_text := Return (js "Internal Server Error");
                 resp_json := Throw SyntaxError |}
              (js "Internal Server Error") st eq_refl eq_refl eq_refl eq_refl)
    as (H1 & _ & H2 & _).
  split; [exact H1 | exact H2].
Defined.

(** The trigger is enabled after the analysis of a text that fails
    validation. *)
Lemma handleAnalyze_enables_trigger_run :
  let st := page (js "not a url!!") in
  let net := server 200 [] (Return (AnalysisResponse 50 [])) in
  analyzeBtn_disabled st = true /\
  isValid (trim (urlInput_value (final (handleAnalyze no_host net) st))) = false /\
  analyzeBtn_disabled (final (handleAnalyze no_host net) st) = false.
Proof.
  intros st net.
  destruct (handleAnalyze_enables_trigger no_host net st eq_refl) as (H1 & H2 & _).
  split; [reflexivity |]. split; [| exact H1].
  rewrite H2. reflexivity.
Defined.

(** A response without [parameters]: rendering throws, the dialog shows and
    the popup is out of loading. *)
Lemma handleAnalyze_missing_parameters :
  let st := page (js "example.com") in
  let analysis := JObject [(js "score", JNumber 50)] in
  let net := server 200 [] (Return analysis) in
  result (displayResults no_host analysis) st = Throw TypeError /\
  alerts (final (handleAnalyze no_host net) st) = [js "Analysis failed. Please try again."] /\
  loader_hidden (final (handleAnalyze no_host net) st) = true /\
  analyzeBtn_disabled (final (handleAnalyze no_host net) st) = false.
Proof.
  intros st analysis net.
  destruct (handleAnalyze_catches_rendering_error no_host net
              {| resp_status := 200; resp_text := Return []; resp_json := Return analysis |}
              analysis TypeError st eq_refl eq_refl eq_refl eq_refl eq_refl)
    as (_ & H1 & H2 & H3 & _).
  repeat split; assumption.
Defined.

(** A status that is a number, not a string: rendering throws after the
    score is shown and the list emptied. *)
Example displayResults_status_not_a_string :
  let analysis :=
    AnalysisResponse 50
      [JObject [(js "icon", JString (js "a")); (js "name", JString (js "HTTPS"));
                (js "status", JNumber 1)]] in
  result (displayResults no_host analysis) (page []) = Throw TypeError /\
  scoreValue_textContent (final (displayResults no_host analysis) (page [])) = js "5/10" /\
  parametersList (final (displayResults no_host analysis) (page [])) = [].
Proof. vm_compute. repeat split. Qed.

(** The [input] listener run on a page that is loading: a text that passes
    validation enables the trigger. *)
Example input_event_while_loading :
  let st := set_loading true (page []) in
  analyzeBtn_disabled st = true /\
  analyzeBtn_disabled (final (input_event (js "example.com")) st) = false /\
  loader_hidden (final (input_event (js "example.com")) st) = false.
Proof. vm_compute. repeat split. Qed.

(** The preference [false] keeps the timer away; a tab without URL leaves
    the field alone. *)
Example autoFillURL_on_load_runs :
  let tab := {| tab_url := Some (js "https://example.com/") |} in
  timers (final (autoFillURL_on_load (Return [tab]) []) (page [])) = [auto_analyze_timer] /\
  timers (final (autoFillURL_on_load (Return [tab]) [(js "autoAnalyze", JBool false)]) (page []))
  = [] /\
  final (autoFillURL_on_load (Return [{| tab_url := None |}]) []) (page []) = page [].
Proof. vm_compute. repeat split. Qed.

(* ===================================================================== *)
(** * The rest of the popup *)
(* ===================================================================== *)

(** ** The alphabet of the pattern *)

Lemma Matches_within (P : code_unit -> bool) (r : Regex.t) (s : jsstr) :
  classes_within P r -> Regex.Matches r s -> Forall (fun c => P c = true) s.
Proof.
  intros Hr H. induction H; simpl in Hr; try solve [constructor]; try tauto.
  - constructor; auto.
  - apply Forall_app. tauto.
  - apply Forall_app. tauto.
Qed.

Lemma Matches_Class_inv (p : code_unit -> bool) (s : jsstr) :
  Regex.Matches (Regex.Class p) s -> exists c, s = [c] /\ p c = true.
Proof. intro H. inversion H; subst; eauto. Qed.

Lemma N_below (k : nat) (P : N -> Prop) :
  Forall P (map N.of_nat (seq 0 k)) -> forall n, (n < N.of_nat k)%N -> P n.
Proof.
  intros H n Hn. rewrite Forall_forall in H. apply H.
  rewrite <- (N2Nat.id n). apply in_map. apply in_seq. lia.
Qed.

Lemma url_char_ascii (c : code_unit) : url_char c = true -> (c < 128)%N.
Proof.
  unfold url_char, word_char, one_of. cbn [js map list_ascii_of_string existsb N_of_ascii].
  intro H.
  repeat match goal with
         | H : (_ || _) = true |- _ => apply orb_true_iff in H; destruct H as [H | H]
         | H : (_ && _) = true |- _ => apply andb_true_iff in H; destruct H as [? H]
         | H : (_ <=? _)%N = true |- _ => apply N.leb_le in H
         | H : (_ =? _)%N = true |- _ => apply N.eqb_eq in H
         end; try discriminate; try (vm_compute in H; lia); try lia.
Qed.

Lemma URL_PATTERN_within : classes_within url_char URL_PATTERN.
Proof.
  assert (Hw : forall c, word_or_dash c = true -> url_char c = true).
  { intros c H. unfold word_or_dash, url_char, one_of in *.
    destruct (word_char c); [reflexivity |]. cbn in *.
    rewrite orb_false_r in H. rewrite H. reflexivity. }
  assert (Hp : forall c, path_char c = true -> url_char c = true).
  { intros c H. unfold path_char, url_char, one_of in *.
    destruct (word_char c); [reflexivity |]. cbn in *.
    repeat (apply orb_true_iff in H; destruct H as [H | H]);
      try discriminate; rewrite H; repeat rewrite orb_true_r; reflexivity. }
  unfold URL_PATTERN, Regex.Opt, Regex.Plus, Regex.Lit, Regex.Chr.
  cbn [classes_within fold_right list_ascii_of_string].
  repeat split; auto;
    intros c H; apply N.eqb_eq in H; subst c; reflexivity.
Qed.

Lemma URL_PATTERN_dot (url : jsstr) : Regex.Matches URL_PATTERN url -> In 0x2E%N url.
Proof.
  unfold URL_PATTERN, Regex.Plus. intro H.
  apply RegexFacts.Matches_Seq_inv in H as (s0 & s1 & -> & _ & H).
  apply RegexFacts.Matches_Seq_inv in H as (s2 & s3 & -> & H & _).
  apply RegexFacts.Matches_Seq_inv in H as (s4 & s5 & -> & H & _).
  apply RegexFacts.Matches_Seq_inv in H as (s6 & s7 & -> & _ & H).
  apply Matches_Class_inv in H as (c & -> & Hc).
  apply N.eqb_eq in Hc. subst c.
  apply in_or_app. right. apply in_or_app. left. apply in_or_app. left.
  apply in_or_app. right. left. reflexivity.
Qed.

Lemma isValid_Matches (url : jsstr) : isValid url = true -> Regex.Matches URL_PATTERN url.
Proof.
  unfold isValid. intro H. apply andb_true_iff in H as [_ H].
  apply RegexFacts.test_Matches. exact H.
Qed.

(** X1. A text that [isValid] accepts is made of ASCII letters, digits,
    the underscore and the characters - . / ? % & = : and blank only, and
    holds at least one dot. *)
Theorem isValid_characters (url : jsstr) :
  isValid url = true ->
  Forall (fun c => url_char c = true) url /\ In 0x2E%N url.
Proof.
  intro H. apply isValid_Matches in H. split.
  - exact (Matches_within url_char URL_PATTERN url URL_PATTERN_within H).
  - exact (URL_PATTERN_dot url H).
Qed.

Lemma escape_unit_url_char (c : code_unit) :
  url_char c = true ->
  escape_unit c = [c] /\ is_high_surrogate c = false.
Proof.
  intro H. pose proof (url_char_ascii c H) as Hc. revert H.
  refine (N_below 128
            (fun c => url_char c = true ->
                      escape_unit c = [c] /\ is_high_surrogate c = false) _ c Hc).
  cbv [seq map].
  repeat (constructor; [vm_compute; intro; first [discriminate | split; reflexivity] |]).
  constructor.
Qed.

Lemma quote_units_url_chars (s : jsstr) :
  Forall (fun c => url_char c = true) s -> quote_units s = s.
Proof.
  induction 1 as [| c rest Hc _ IH]; [reflexivity |].
  destruct (escape_unit_url_char c Hc) as [He Hs].
  cbn [quote_units]. rewrite Hs, He. cbn [andb].
  destruct rest; [reflexivity |]. rewrite IH. reflexivity.
Qed.

(** X2. For a text that [isValid] accepts, the body of the request is the
    text itself between the fixed parts of the JSON object: nothing of it is
    escaped by [JSON.stringify]. *)
Theorem predict_request_body_verbatim (url : jsstr) :
  isValid url = true ->
  req_body (predict_request url)
  = js "{" ++ dquote ++ js "url" ++ dquote ++ js ":" ++ dquote ++ url ++ dquote ++ js "}".
Proof.
  intro H. apply isValid_Matches in H.
  apply (Matches_within url_char URL_PATTERN url URL_PATTERN_within) in H.
  unfold predict_request, JSON_stringify_url, QuoteJSONString. cbn [req_body].
  rewrite (quote_units_url_chars url H). rewrite <- !app_assoc. reflexivity.
Qed.

(** ** Blanks around a text *)

Lemma trimStart_app_last (l : jsstr) (c : code_unit) :
  is_white_space c = false -> trimStart (l ++ [c]) = trimStart l ++ [c].
Proof.
  intro Hc. induction l as [| a l IH]; simpl.
  - rewrite Hc. reflexivity.
  - destruct (is_white_space a); [exact IH | reflexivity].
Qed.

Lemma trimStart_head (s : jsstr) :
  match trimStart s with
  | [] => True
  | c :: _ => is_white_space c = false
  end.
Proof.
  induction s as [| a s IH]; simpl; [exact I |].
  destruct (is_white_space a) eqn:E; [exact IH | exact E].
Qed.

Lemma trimStart_fixed (c : code_unit) (s : jsstr) :
  is_white_space c = false -> trimStart (c :: s) = c :: s.
Proof. intro H. simpl. rewrite H. reflexivity. Qed.

Lemma trimEnd_cons (c : code_unit) (s : jsstr) :
  is_white_space c = false -> trimEnd (c :: s) = c :: trimEnd s.
Proof.
  intro H. unfold trimEnd. simpl rev. rewrite trimStart_app_last by exact H.
  rewrite rev_app_distr. reflexivity.
Qed.

Lemma trimEnd_idempotent (s : jsstr) : trimEnd (trimEnd s) = trimEnd s.
Proof.
  unfold trimEnd. rewrite rev_involutive.
  pose proof (trimStart_head (rev s)) as H.
  destruct (trimStart (rev s)) as [| c t]; [reflexivity |].
  rewrite trimStart_fixed by exact H. reflexivity.
Qed.

Lemma trim_idempotent (s : jsstr) : trim (trim s) = trim s.
Proof.
  unfold trim. pose proof (trimStart_head s) as H.
  destruct (trimStart s) as [| c t]; [reflexivity |].
  rewrite trimEnd_cons by exact H.
  rewrite trimStart_fixed by exact H.
  rewrite <- trimEnd_cons by exact H.
  apply trimEnd_idempotent.
Qed.

(** ** Rendering and analysis *)

Section Handlers.
Variable host : Builtins.

Lemma appendParameters_now (elements : list JsValue) (w : World) :
  now (snd (appendParameters host elements w))
  = set_parametersList (parametersList (now w) ++ rendered host elements) (now w).
Proof.
  revert w. induction elements as [| param rest IH]; intro w.
  - destruct w as [[] h]. cbn. rewrite app_nil_r. reflexivity.
  - rewrite appendParameters_cons. cbn [rendered].
    destruct (createParameterItem host param) as [item | e].
    + rewrite IH. destruct w as [[] h]. cbn. rewrite <- app_assoc. reflexivity.
    + destruct w as [[] h]. cbn. rewrite app_nil_r. reflexivity.
Qed.

Lemma displayResults_now (analysis : JsValue) (w : World) :
  now (snd (displayResults host analysis w)) = render_page host analysis (now w).
Proof.
  rewrite displayResults_run. unfold render_page. cbv zeta.
  destruct (and_then _ _) as [raw | e]; [| reflexivity].
  destruct (Get analysis "parameters") as [[] | e]; try reflexivity.
  rewrite appendParameters_now. reflexivity.
Qed.

Lemma displayResults_final (analysis : JsValue) (st : UI) :
  final (displayResults host analysis) st = render_page host analysis st.
Proof. unfold final. rewrite displayResults_now. reflexivity. Qed.

Ltac render_cases :=
  unfold render_page, set_style_width;
  repeat match goal with
         | |- context [match ?x with _ => _ end] => destruct x
         end.

(** X3. Whatever the response, [displayResults] leaves the results section
    shown and does not touch the field, the trigger, the loading indicator,
    the classes of the body, the dialogs, the console, the requests or the
    timers. *)
Theorem displayResults_frame (analysis : JsValue) (st : UI) :
  let st' := final (displayResults host analysis) st in
  resultsSection_hidden st' = false /\
  urlInput_value st' = urlInput_value st /\
  analyzeBtn_disabled st' = analyzeBtn_disabled st /\
  btnText_hidden st' = btnText_hidden st /\
  loader_hidden st' = loader_hidden st /\
  body_collapsed st' = body_collapsed st /\
  body_expanded st' = body_expanded st /\
  alerts st' = alerts st /\
  console st' = console st /\
  requests st' = requests st /\
  timers st' = timers st.
Proof.
  cbv zeta. rewrite displayResults_final. render_cases; repeat split.
Qed.

(** X4. Rendering the same response a second time changes nothing: the
    page and the outcome are those of the first rendering. *)
Theorem displayResults_idempotent (analysis : JsValue) (st : UI) :
  final (displayResults host analysis) (final (displayResults host analysis) st)
  = final (displayResults host analysis) st /\
  result (displayResults host analysis) (final (displayResults host analysis) st)
  = result (displayResults host analysis) st.
Proof.
  split; [| apply displayResults_result].
  rewrite !displayResults_final. destruct st.
  unfold render_page, set_style_width. cbv zeta.
  destruct (and_then _ _) as [raw | e]; [| reflexivity].
  destruct (Regex.test _ _);
    destruct (Get analysis "parameters") as [[] | e]; reflexivity.
Qed.

Lemma rendered_app (good rest : list JsValue) (items : list Element) :
  Forall2 (fun param item => createParameterItem host param = Return item) good items ->
  rendered host (good ++ rest) = items ++ rendered host rest.
Proof.
  induction 1 as [| p i good items Hp _ IH]; [reflexivity |].
  cbn [app rendered]. rewrite Hp, IH. reflexivity.
Qed.

Lemma sequence_fails (good rest : list JsValue) (bad : JsValue) (items : list Element)
    (e : JsError) :
  Forall2 (fun param item => createParameterItem host param = Return item) good items ->
  createParameterItem host bad = Throw e ->
  sequence (map (createParameterItem host) (good ++ bad :: rest)) = Throw e.
Proof.
  intros H Hbad. induction H as [| p i good items Hp _ IH]; cbn [app map sequence].
  - rewrite Hbad. reflexivity.
  - rewrite Hp, IH. reflexivity.
Qed.

(** X5. When the parameters before some parameter render and that one
    throws, [displayResults] throws its error and the list holds the items
    of the parameters before it, in order; the ones after it are not
    rendered. *)
Theorem displayResults_partial (response : JsValue) (raw : float)
    (good rest : list JsValue) (bad : JsValue) (items : list Element) (e : JsError) (st : UI) :
  (let? v := Get response "score" in ToNumber host v) = Return raw ->
  Get response "parameters" = Return (JArray (good ++ bad :: rest)) ->
  Forall2 (fun param item => createParameterItem host param = Return item) good items ->
  createParameterItem host bad = Throw e ->
  result (displayResults host response) st = Throw e /\
  parametersList (final (displayResults host response) st) = items.
Proof.
  intros Hscore Hparams Hgood Hbad. split.
  - unfold result. rewrite displayResults_run, Hscore, Hparams. cbv zeta.
    match goal with |- fst (appendParameters _ ?l ?w) = _ =>
      pose proof (appendParameters_run host l w) as H end.
    rewrite (sequence_fails good rest bad items e Hgood Hbad) in H. exact H.
  - rewrite displayResults_final. unfold render_page. rewrite Hscore, Hparams. cbv zeta.
    cbn [parametersList set_parametersList].
    rewrite (rendered_app good (bad :: rest) items Hgood). cbn [rendered].
    rewrite Hbad. apply app_nil_r.
Qed.

(** X6. A response without [score] shows the text NaN/10 and leaves the
    width of the bar as it was. *)
Theorem displayResults_missing_score (response : JsValue) (st : UI) :
  Get response "score" = Return JUndefined ->
  scoreValue_textContent (final (displayResults host response) st) = js "NaN/10" /\
  progressFill_width (final (displayResults host response) st) = progressFill_width st.
Proof.
  intro H. rewrite displayResults_final. unfold render_page. rewrite H.
  cbn [and_then ToNumber]. cbv zeta.
  change (Math_round (nan / 10)%float) with nan.
  change (Number_toString host nan) with (js "NaN").
  change (Number_toString host (nan * 10)%float) with (js "NaN").
  unfold set_style_width.
  change (Regex.test CSS_PERCENTAGE (js "NaN" ++ js "%")) with false.
  destruct (Get response "parameters") as [[] | e]; split; reflexivity.
Qed.

(** X7. When [parameters] of the response is not an array, [displayResults]
    throws a TypeError after it has shown the score and emptied the list. *)
Theorem displayResults_parameters_not_an_array (response parameters : JsValue) (raw : float)
    (st : UI) :
  (let? v := Get response "score" in ToNumber host v) = Return raw ->
  Get response "parameters" = Return parameters ->
  (forall elements, parameters <> JArray elements) ->
  result (displayResults host response) st = Throw TypeError /\
  parametersList (final (displayResults host response) st) = [] /\
  scoreValue_textContent (final (displayResults host response) st)
  = Number_toString host (Math_round (raw / 10)%float) ++ js "/10".
Proof.
  intros Hscore Hparams Hnot.
  rewrite displayResults_final. unfold result, render_page.
  rewrite displayResults_run, Hscore, Hparams. cbv zeta.
  destruct parameters; try (repeat split; unfold set_style_width;
                            destruct (Regex.test _ _); reflexivity).
  exfalso. eapply Hnot. reflexivity.
Qed.

Lemma handleAnalyze_now (net : Network) (w : World) :
  now (snd (handleAnalyze host net w)) = analyzed_page host net (now w) /\
  fst (handleAnalyze host net w) = Return tt.
Proof.
  rewrite handleAnalyze_run. unfold analyzed_page. cbv zeta.
  destruct (is_empty _); [split; reflexivity |].
  split; [| reflexivity].
  rewrite attempt_run, performAnalysis_run. cbv zeta.
  destruct (analysis_of net _) as [analysis | e]; [| reflexivity].
  match goal with |- context [displayResults host analysis ?w1] =>
    pose proof (displayResults_now analysis w1) as Hn;
    pose proof (displayResults_result host analysis w1 (start (now w))) as Hr;
    destruct (displayResults host analysis w1) as [[[] | e] w2]
  end; cbn [fst snd] in Hn, Hr; unfold result; rewrite <- Hr;
    cbn [push now fst snd]; unfold now in *; rewrite Hn; reflexivity.
Qed.

Lemma handleAnalyze_final (net : Network) (st : UI) :
  final (handleAnalyze host net) st = analyzed_page host net st.
Proof. unfold final. apply handleAnalyze_now. Qed.

Lemma render_page_frame (analysis : JsValue) (st : UI) :
  let st' := render_page host analysis st in
  resultsSection_hidden st' = false /\
  urlInput_value st' = urlInput_value st /\
  analyzeBtn_disabled st' = analyzeBtn_disabled st /\
  btnText_hidden st' = btnText_hidden st /\
  loader_hidden st' = loader_hidden st /\
  body_collapsed st' = body_collapsed st /\
  body_expanded st' = body_expanded st /\
  alerts st' = alerts st /\
  console st' = console st /\
  requests st' = requests st /\
  timers st' = timers st.
Proof. cbv zeta. render_cases; repeat split. Qed.

Lemma handleAnalyze_requests (net : Network) (st : UI) :
  requests (final (handleAnalyze host net) st)
  = requests st ++
    (if is_empty (trim (urlInput_value st)) then []
     else [predict_request (trim (urlInput_value st))]).
Proof.
  rewrite handleAnalyze_final. unfold analyzed_page. cbv zeta.
  destruct (is_empty _); [cbn; rewrite app_nil_r; reflexivity |].
  destruct (analysis_of net _) as [analysis | e]; [| reflexivity].
  match goal with |- context [render_page host analysis ?st1] =>
    destruct (render_page_frame analysis st1) as (_ & _ & _ & _ & _ & _ & _ & _ & _ & H & _)
  end.
  destruct (result _ _); cbn [requests set_loading set_body_classes set_alerts];
    rewrite H; reflexivity.
Qed.

(** X8. A run of [handleAnalyze] whose request completes with a response
    that renders: no dialog and no console line, the results section is
    shown, the popup is expanded, the indicator is hidden and the trigger
    enabled. *)
Theorem handleAnalyze_success (net : Network) (analysis : JsValue) (st : UI) :
  let url := trim (urlInput_value st) in
  is_empty url = false ->
  analysis_of net url = Return analysis ->
  result (displayResults host analysis) st = Return tt ->
  let st' := final (handleAnalyze host net) st in
  alerts st' = alerts st /\
  console st' = console st /\
  resultsSection_hidden st' = false /\
  body_collapsed st' = false /\
  body_expanded st' = true /\
  loader_hidden st' = true /\
  analyzeBtn_disabled st' = false.
Proof.
  intros url Hurl Hof Hres st'. subst st'.
  rewrite handleAnalyze_final. unfold analyzed_page. cbv zeta. fold url.
  rewrite Hurl, Hof, Hres.
  match goal with |- context [render_page host analysis ?st1] =>
    destruct (render_page_frame analysis st1)
      as (H1 & _ & _ & _ & _ & _ & _ & H2 & H3 & _ & _)
  end.
  cbn [alerts console resultsSection_hidden body_collapsed body_expanded loader_hidden
       analyzeBtn_disabled set_loading set_body_classes negb].
  rewrite H1, H2, H3. repeat split.
Qed.

(** X9. A run of [handleAnalyze] whose request fails, for whatever reason:
    the one generic dialog, the error on the console, and the results
    section, the score, the bar, the list and the classes of the body are as
    before the call. *)
Theorem handleAnalyze_request_failure (net : Network) (e : JsError) (st : UI) :
  let url := trim (urlInput_value st) in
  is_empty url = false ->
  analysis_of net url = Throw e ->
  let st' := final (handleAnalyze host net) st in
  alerts st' = alerts st ++ [js "Analysis failed. Please try again."] /\
  console st' = console st ++ [(js "API call failed:", e)] /\
  resultsSection_hidden st' = resultsSection_hidden st /\
  scoreValue_textContent st' = scoreValue_textContent st /\
  progressFill_width st' = progressFill_width st /\
  parametersList st' = parametersList st /\
  body_collapsed st' = body_collapsed st /\
  body_expanded st' = body_expanded st.
Proof.
  intros url Hurl Hof st'. subst st'.
  rewrite handleAnalyze_final. unfold analyzed_page. cbv zeta. fold url.
  rewrite Hurl, Hof. repeat split.
Qed.

(** X10. [handleAnalyze] never throws; it shows at most one dialog, sends
    at most one request, arms no timer and leaves the text of the field
    alone. *)
Theorem handleAnalyze_bounded_effects (net : Network) (st : UI) :
  let st' := final (handleAnalyze host net) st in
  result (handleAnalyze host net) st = Return tt /\
  (exists shown, alerts st' = alerts st ++ shown /\ List.length shown <= 1) /\
  (exists sent, requests st' = requests st ++ sent /\ List.length sent <= 1) /\
  timers st' = timers st /\
  urlInput_value st' = urlInput_value st.
Proof.
  cbv zeta. split; [apply handleAnalyze_now |].
  split; [| split].
  - rewrite handleAnalyze_final. unfold analyzed_page. cbv zeta.
    destruct (is_empty _); [eexists; split; [reflexivity | simpl; lia] |].
    destruct (analysis_of net _) as [analysis | e];
      [| eexists; split; [reflexivity | simpl; lia]].
    match goal with |- context [render_page host analysis ?st1] =>
      destruct (render_page_frame analysis st1) as (_ & _ & _ & _ & _ & _ & _ & H & _)
    end.
    destruct (result _ _); cbn [alerts set_loading set_body_classes set_alerts]; rewrite H.
    + exists []. split; [cbn; rewrite app_nil_r; reflexivity | simpl; lia].
    + eexists; split; [reflexivity | simpl; lia].
  - rewrite handleAnalyze_requests. eexists; split; [reflexivity |].
    destruct (is_empty _); simpl; lia.
  - rewrite handleAnalyze_final. unfold analyzed_page. cbv zeta.
    destruct (is_empty _); [split; reflexivity |].
    destruct (analysis_of net _) as [analysis | e]; [| split; reflexivity].
    match goal with |- context [render_page host analysis ?st1] =>
      destruct (render_page_frame analysis st1) as (_ & H1 & _ & _ & _ & _ & _ & _ & _ & _ & H2)
    end.
    destruct (result _ _);
      cbn [timers urlInput_value set_loading set_body_classes set_alerts];
      rewrite H1, H2; split; reflexivity.
Qed.


(** X12. On such a page a click on the trigger sends the request for the
    trimmed field when it passes validation, and changes nothing at all
    when it does not. *)
Theorem click_sends_valid_only (net : Network) (st : UI) :
  agrees st ->
  let url := trim (urlInput_value st) in
  let st' := final (click_analyzeBtn host net) st in
  (isValid url = true -> requests st' = requests st ++ [predict_request url]) /\
  (isValid url = false -> st' = st).
Proof.
  intros Hagrees url st'. unfold agrees in Hagrees. subst st' url.
  unfold final, click_analyzeBtn, bind, gets. cbn [fst snd now start].
  rewrite Hagrees. split; intro Hv; rewrite Hv; cbn [negb].
  - fold (final (handleAnalyze host net) st). rewrite handleAnalyze_requests.
    unfold isValid in Hv. apply andb_true_iff in Hv as [Hv _].
    apply negb_true_iff in Hv. rewrite Hv. reflexivity.
  - reflexivity.
Qed.

(** X13. [handlePaste] never throws. When the clipboard is read the field
    holds the text as the input element keeps it, with no dialog and no
    request; when the read fails the only change is the dialog for it. *)
Theorem handlePaste_outcomes (sanitize : jsstr -> jsstr) (readText : Outcome jsstr) (st : UI) :
  let st' := final (handlePaste sanitize readText) st in
  result (handlePaste sanitize readText) st = Return tt /\
  match readText with
  | Return text =>
      urlInput_value st' = sanitize text /\ alerts st' = alerts st /\
      requests st' = requests st
  | Throw _ => st' = set_alerts (alerts st ++ [js "Failed to paste from clipboard"]) st
  end.
Proof.
  unfold result, final, handlePaste, validateInput, showError, alert, try_catch, bind, lift,
    gets, modify, start.
  destruct readText as [text | e]; cbn; repeat split.
Qed.

(** X14. [copyCurrentTabURL] never throws and shows exactly one dialog.
    When the first tab of the query has a URL and the write of that URL is
    fulfilled, the clipboard holds the URL of the tab, the dialog is
    "URL copied: " followed by it, the field holds it and the trigger is
    set by its validation. Otherwise the clipboard, the field and the
    trigger are as before and the dialog tells why: no URL, or the error of
    the query or of the write. *)
Theorem copyCurrentTabURL_outcomes (describe : JsError -> jsstr) (query : Outcome (list Tab))
    (writeText : jsstr -> Outcome unit) (clipboard : jsstr) (st : UI) :
  let call := copyCurrentTabURL describe query writeText clipboard in
  let st' := final call st in
  let failed message :=
    result call st = Return clipboard /\
    alerts st' = alerts st ++ [message] /\
    urlInput_value st' = urlInput_value st /\
    analyzeBtn_disabled st' = analyzeBtn_disabled st in
  match query with
  | Throw e => failed (js "Failed to copy URL: " ++ describe e)
  | Return ({| tab_url := Some url |} :: _) =>
      if is_empty url then failed (js "Could not fetch tab URL")
      else
        match writeText url with
        | Return _ =>
            result call st = Return url /\
            alerts st' = alerts st ++ [js "URL copied: " ++ url] /\
            urlInput_value st' = url /\
            analyzeBtn_disabled st' = negb (isValid (trim url))
        | Throw e => failed (js "Failed to copy URL: " ++ describe e)
        end
  | Return _ => failed (js "Could not fetch tab URL")
  end.
Proof.
  unfold result, final, copyCurrentTabURL, validateInput, alert, try_catch, bind, lift,
    gets, modify, ret, start.
  cbn [fst snd]. cbv zeta.
  destruct query as [[| [[[| c url'] |]] rest] | e]; cbn [is_empty]; page_simpl;
    try (repeat split; reflexivity).
  destruct (writeText (c :: url')) as [[] | e]; page_simpl; repeat split; reflexivity.
Qed.

(** X15. The filling on load never throws, shows no dialog and sends no
    request by itself; the console gets a line only when the query of the
    tabs fails, and then nothing else changes. *)
Theorem autoFillURL_on_load_silent (query : Outcome (list Tab)) (storage : list (jsstr * JsValue))
    (st : UI) :
  let st' := final (autoFillURL_on_load query storage) st in
  result (autoFillURL_on_load query storage) st = Return tt /\
  alerts st' = alerts st /\
  requests st' = requests st /\
  (console st' = console st \/
   exists e, query = Throw e /\
     st' = set_console (console st ++ [(js "Failed to auto-fill or analyze URL:", e)]) st).
Proof.
  unfold result, final, autoFillURL_on_load, autoFillURL, autoAnalyze_callback, validateInput,
    chrome_storage_sync_get, Get, setTimeout, console_error,
    try_catch, bind, lift, gets, modify, ret, start.
  cbn [fst snd].
  destruct query as [[| [[[| c url'] |]] rest] | e]; cbn [is_empty]; page_simpl;
    try (destruct (lookup (js "autoAnalyze") _));
    try match goal with |- context [if ?b then _ else _] => destruct b end; page_simpl;
    (split; [reflexivity |]); (split; [reflexivity |]); (split; [reflexivity |]);
    first [left; reflexivity | right; eexists; split; reflexivity].
Qed.


(** X17. Blanks around the text of the field change neither the state of
    the trigger after validation nor the request [handleAnalyze] sends. *)
Theorem surrounding_blanks_ignored (text : jsstr) (net : Network) (st : UI) :
  analyzeBtn_disabled (final (input_event (trim text)) st)
  = analyzeBtn_disabled (final (input_event text) st) /\
  requests (final (handleAnalyze host net) (set_urlInput_value (trim text) st))
  = requests (final (handleAnalyze host net) (set_urlInput_value text st)).
Proof.
  split.
  - unfold final, input_event, validateInput, bind, gets, modify, start. cbn [fst snd].
    page_simpl. rewrite trim_idempotent. reflexivity.
  - rewrite !handleAnalyze_requests. cbn [urlInput_value set_urlInput_value requests].
    rewrite trim_idempotent. reflexivity.
Qed.

End Handlers.

(** ** Theme and preferences *)

Lemma jsstr_eqb_refl (s : jsstr) : jsstr_eqb s s = true.
Proof. induction s as [| c s IH]; [reflexivity |]. cbn. rewrite N.eqb_refl. exact IH. Qed.

Lemma jsstr_eqb_eq (a b : jsstr) : jsstr_eqb a b = true -> a = b.
Proof.
  revert b. induction a as [| x a IH]; intros [| y b] H; try discriminate; [reflexivity |].
  cbn in H. apply andb_true_iff in H as [Hx H]. apply N.eqb_eq in Hx. subst y.
  f_equal. apply IH. exact H.
Qed.

Lemma lookup_app_last (key : jsstr) (v : JsValue) (l : list (jsstr * JsValue)) :
  lookup key (l ++ [(key, v)]) = Some v.
Proof.
  induction l as [| [k x] l IH]; cbn [app lookup].
  - rewrite jsstr_eqb_refl. reflexivity.
  - rewrite IH. reflexivity.
Qed.

Lemma lookup_set (key : jsstr) (v : JsValue) (storage : list (jsstr * JsValue)) :
  lookup key (chrome_storage_sync_set key v storage) = Some v.
Proof. apply lookup_app_last. Qed.

Lemma lookup_set_other (key other : jsstr) (v : JsValue) (storage : list (jsstr * JsValue)) :
  jsstr_eqb key other = false ->
  lookup other (chrome_storage_sync_set key v storage) = lookup other storage.
Proof.
  intro H. unfold chrome_storage_sync_set.
  induction storage as [| [k x] l IH]; cbn [filter app lookup fst].
  - rewrite H. reflexivity.
  - destruct (jsstr_eqb k key) eqn:E; cbn [negb app lookup].
    + apply jsstr_eqb_eq in E. subst k. rewrite IH, H.
      destruct (lookup other l); reflexivity.
    + rewrite IH. reflexivity.
Qed.

Lemma set_set (key : jsstr) (v v' : JsValue) (storage : list (jsstr * JsValue)) :
  chrome_storage_sync_set key v' (chrome_storage_sync_set key v storage)
  = chrome_storage_sync_set key v' storage.
Proof.
  unfold chrome_storage_sync_set. f_equal.
  rewrite filter_app. cbn [filter fst]. rewrite jsstr_eqb_refl. cbn [negb].
  rewrite app_nil_r.
  induction storage as [| [k x] l IH]; [reflexivity |].
  cbn [filter fst]. destruct (jsstr_eqb k key) eqn:E; cbn [negb filter fst].
  - exact IH.
  - rewrite E. cbn [negb]. rewrite IH. reflexivity.
Qed.

Lemma stored_item (key : string) (storage : list (jsstr * JsValue)) :
  Get (chrome_storage_sync_get storage [js key]) key
  = Return match lookup (js key) storage with Some v => v | None => JUndefined end.
Proof.
  unfold chrome_storage_sync_get, Get. rewrite lookup_storage_get.
  destruct (lookup (js key) storage); reflexivity.
Qed.

Section Theme.
Variable host : Builtins.

(** X18. After [toggleTheme] the theme is light or dark with the icon that
    goes with it, the stored theme is the one shown, and two more toggles
    come back to the same state. *)
Theorem toggleTheme_light_or_dark (c : Chrome) :
  let c' := toggleTheme c in
  (data_theme c' = Some (js "light") /\ themeIcon_textContent c' = ICON_OF_LIGHT \/
   data_theme c' = Some (js "dark") /\ themeIcon_textContent c' = ICON_OF_DARK) /\
  lookup (js "theme") (sync_storage c') = option_map JString (data_theme c') /\
  toggleTheme (toggleTheme c') = c'.
Proof.
  destruct c as [theme icon toggle dot storage].
  unfold toggleTheme. cbv zeta.
  destruct (jsstr_eqb (currentTheme _) (js "light"));
    cbn [data_theme themeIcon_textContent sync_storage set_data_theme
         set_themeIcon_textContent set_sync_storage];
    (split; [| split]).
  - right. split; reflexivity.
  - rewrite lookup_set. reflexivity.
  - unfold currentTheme, set_sync_storage, set_themeIcon_textContent, set_data_theme.
    cbn. rewrite !set_set. reflexivity.
  - left. split; reflexivity.
  - rewrite lookup_set. reflexivity.
  - unfold currentTheme, set_sync_storage, set_themeIcon_textContent, set_data_theme.
    cbn. rewrite !set_set. reflexivity.
Qed.

(** X19. A popup opened on the storage that [toggleTheme] left shows, after
    [loadTheme], the theme and the icon of the popup that toggled. *)
Theorem loadTheme_restores_toggled (c fresh : Chrome) :
  sync_storage fresh = sync_storage (toggleTheme c) ->
  exists loaded,
    loadTheme host fresh = Return loaded /\
    data_theme loaded = data_theme (toggleTheme c) /\
    themeIcon_textContent loaded = themeIcon_textContent (toggleTheme c).
Proof.
  intro H. unfold loadTheme. cbv zeta. rewrite stored_item, H.
  destruct c as [theme icon toggle dot storage].
  unfold toggleTheme. cbv zeta.
  destruct (jsstr_eqb (currentTheme _) (js "light"));
    cbn [data_theme themeIcon_textContent sync_storage set_data_theme
         set_themeIcon_textContent set_sync_storage];
    rewrite lookup_set; cbn; eexists; repeat split.
Qed.

(** X20. With no theme stored, or a stored value that is falsy,
    [loadTheme] sets the light theme and its icon. *)
Theorem loadTheme_default (c : Chrome) :
  (forall v, lookup (js "theme") (sync_storage c) = Some v -> truthy v = false) ->
  loadTheme host c
  = Return (set_themeIcon_textContent ICON_OF_LIGHT (set_data_theme (Some (js "light")) c)).
Proof.
  intro H. unfold loadTheme. cbv zeta. rewrite stored_item.
  destruct (lookup (js "theme") (sync_storage c)) as [v |]; cbn [and_then].
  - rewrite (H v eq_refl). reflexivity.
  - reflexivity.
Qed.

(** X21. Whatever is stored, on a page that has the toggle, the toggle
    [loadAutoAnalyzeSetting] shows is on exactly when the filling on load of
    a tab with a URL that is not blank arms the timer. *)
Theorem toggle_matches_auto_analysis (c : Chrome) (checked : bool) (url : jsstr)
    (rest : list Tab) (st : UI) :
  autoAnalyzeToggle_checked c = Some checked ->
  is_empty (trim url) = false ->
  exists shown,
    loadAutoAnalyzeSetting c = Return (set_autoAnalyzeToggle_checked (Some shown) c) /\
    timers (final (autoFillURL_on_load (Return ({| tab_url := Some url |} :: rest))
                     (sync_storage c)) st)
    = timers st ++ (if shown then [auto_analyze_timer] else []).
Proof.
  intros Htoggle Hurl.
  exists (strict_neq_false
            match lookup (js "autoAnalyze") (sync_storage c) with
            | Some v => v
            | None => JUndefined
            end).
  split.
  - unfold loadAutoAnalyzeSetting. cbv zeta. rewrite stored_item, Htoggle. reflexivity.
  - unfold final, autoFillURL_on_load, autoFillURL, autoAnalyze_callback, validateInput,
      setTimeout, try_catch, bind, lift, gets, modify, ret, start.
    cbn [fst snd].
    destruct url as [| u url']; [discriminate |].
    cbn [is_empty]. rewrite stored_item. page_simpl. rewrite Hurl.
    destruct (strict_neq_false _); cbn [andb negb]; page_simpl;
      [reflexivity | rewrite app_nil_r; reflexivity].
Qed.

(** X22. A change of the toggle is kept: a popup opened on the storage it
    left shows the toggle as it was set, and arms the timer for a tab with a
    URL that is not blank exactly when it was set on. *)
Theorem autoAnalyze_preference_round_trip (c fresh : Chrome) (checked shown0 shown1 : bool)
    (url : jsstr) (rest : list Tab) (st : UI) :
  autoAnalyzeToggle_checked c = Some shown0 ->
  autoAnalyzeToggle_checked fresh = Some shown1 ->
  sync_storage fresh = sync_storage (autoAnalyzeToggle_change checked c) ->
  is_empty (trim url) = false ->
  loadAutoAnalyzeSetting fresh = Return (set_autoAnalyzeToggle_checked (Some checked) fresh) /\
  timers (final (autoFillURL_on_load (Return ({| tab_url := Some url |} :: rest))
                   (sync_storage fresh)) st)
  = timers st ++ (if checked then [auto_analyze_timer] else []).
Proof.
  intros Hc Hfresh Hstorage Hurl.
  assert (Hl : lookup (js "autoAnalyze") (sync_storage fresh) = Some (JBool checked)).
  { rewrite Hstorage. unfold autoAnalyzeToggle_change. rewrite Hc. cbv zeta.
    cbn [sync_storage set_sync_storage set_autoAnalyzeToggle_checked].
    apply lookup_set. }
  split.
  - unfold loadAutoAnalyzeSetting. cbv zeta. rewrite stored_item, Hl, Hfresh.
    destruct checked; reflexivity.
  - unfold final, autoFillURL_on_load, autoFillURL, autoAnalyze_callback, validateInput,
      setTimeout, try_catch, bind, lift, gets, modify, ret, start.
    cbn [fst snd].
    destruct url as [| u url']; [discriminate |].
    cbn [is_empty]. rewrite stored_item, Hl. page_simpl. rewrite Hurl.
    destruct checked; cbn [strict_neq_false andb negb]; page_simpl;
      [reflexivity | rewrite app_nil_r; reflexivity].
Qed.

(** X23. With neither preference stored, the toggle of the automatic
    analysis is shown on and the status dot active, where the page has
    them. *)
Theorem first_run_defaults (c : Chrome) :
  lookup (js "autoAnalyze") (sync_storage c) = None ->
  lookup (js "autoScan") (sync_storage c) = None ->
  loadAutoAnalyzeSetting c
  = Return match autoAnalyzeToggle_checked c with
           | Some _ => set_autoAnalyzeToggle_checked (Some true) c
           | None => c
           end /\
  checkAutoScanStatus c
  = Return match statusDot_active c with
           | Some _ => set_statusDot_active (Some true) c
           | None => c
           end.
Proof.
  intros H2 H3.
  unfold loadAutoAnalyzeSetting, checkAutoScanStatus. cbv zeta.
  rewrite !stored_item, H2, H3. cbn [and_then strict_neq_false].
  split.
  - destruct (autoAnalyzeToggle_checked c); reflexivity.
  - destruct (statusDot_active c); reflexivity.
Qed.

(** X24. [toggleTheme] writes the stored theme only and the listener of
    the toggle the stored preference only: the other items, among them the
    one of the status dot, read as before. *)
Theorem preferences_do_not_interfere (c : Chrome) (checked : bool) :
  lookup (js "autoAnalyze") (sync_storage (toggleTheme c))
  = lookup (js "autoAnalyze") (sync_storage c) /\
  lookup (js "autoScan") (sync_storage (toggleTheme c))
  = lookup (js "autoScan") (sync_storage c) /\
  lookup (js "theme") (sync_storage (autoAnalyzeToggle_change checked c))
  = lookup (js "theme") (sync_storage c) /\
  lookup (js "autoScan") (sync_storage (autoAnalyzeToggle_change checked c))
  = lookup (js "autoScan") (sync_storage c).
Proof.
  unfold toggleTheme, autoAnalyzeToggle_change. cbv zeta.
  destruct (autoAnalyzeToggle_checked c);
    cbn [sync_storage set_sync_storage set_data_theme set_themeIcon_textContent
         set_autoAnalyzeToggle_checked];
    repeat split; try reflexivity; apply lookup_set_other; reflexivity.
Qed.

End Theme.

(* ===================================================================== *)
(** * Concrete runs of the rest of the popup *)
(* ===================================================================== *)

(** "https://example.com/a b?c=1" passes: every unit is one of the
    pattern's and there is a dot. *)
Lemma isValid_characters_run :
  let url := js "https://example.com/a b?c=1" in
  isValid url = true /\
  Forall (fun c => url_char c = true) url /\ In 0x2E%N url.
Proof.
  intro url. split; [reflexivity |].
  apply (isValid_characters url). reflexivity.
Defined.

(** The body of the request for "example.com/a?b=1". *)
Lemma predict_request_body_run :
  req_body (predict_request (js "example.com/a?b=1"))
  = js "{" ++ dquote ++ js "url" ++ dquote ++ js ":" ++ dquote ++ js "example.com/a?b=1"
    ++ dquote ++ js "}".
Proof. apply (predict_request_body_verbatim (js "example.com/a?b=1")). reflexivity. Defined.

(** Three parameters, the second with a number for status: one item is
    shown and the call throws. *)
Lemma displayResults_partial_run :
  let bad :=
    JObject [(js "icon", JString (js "b")); (js "name", JString (js "Redirects"));
             (js "status", JNumber 1)] in
  let response :=
    AnalysisResponse 50
      [ParameterResult (js "a") (js "HTTPS") (js "safe"); bad;
       ParameterResult (js "c") (js "Domain age") (js "warning")] in
  let item :=
    {| className := js "parameter-item";
       innerHTML := parameter_markup (js "a") (js "HTTPS") (js "safe") (js "Safe") |} in
  result (displayResults no_host response) (page []) = Throw TypeError /\
  parametersList (final (displayResults no_host response) (page [])) = [item].
Proof.
  intros bad response item.
  apply (displayResults_partial no_host response 50
           [ParameterResult (js "a") (js "HTTPS") (js "safe")]
           [ParameterResult (js "c") (js "Domain age") (js "warning")]
           bad [item] TypeError (page [])).
  - reflexivity.
  - reflexivity.
  - constructor; [reflexivity | constructor].
  - reflexivity.
Defined.

(** A response with the parameters only. *)
Lemma displayResults_missing_score_run :
  let response := JObject [(js "parameters", JArray [])] in
  scoreValue_textContent (final (displayResults no_host response) (page [])) = js "NaN/10" /\
  progressFill_width (final (displayResults no_host response) (page [])) = [].
Proof.
  intro response.
  apply (displayResults_missing_score no_host response (page [])). reflexivity.
Defined.

(** A response whose parameters are a string. *)
Lemma displayResults_parameters_string :
  let response := JObject [(js "score", JNumber 50); (js "parameters", JString (js "none"))] in
  result (displayResults no_host response) (page []) = Throw TypeError /\
  parametersList (final (displayResults no_host response) (page [])) = [] /\
  scoreValue_textContent (final (displayResults no_host response) (page [])) = js "5/10".
Proof.
  intro response.
  apply (displayResults_parameters_not_an_array no_host response (JString (js "none")) 50
           (page [])).
  - reflexivity.
  - reflexivity.
  - intros elements H. discriminate H.
Defined.

(** A successful analysis of "example.com". *)
Lemma handleAnalyze_success_run :
  let st := page (js "example.com") in
  let net := server 200 [] (Return (AnalysisResponse 65 [])) in
  let st' := final (handleAnalyze no_host net) st in
  alerts st' = [] /\ console st' = [] /\ resultsSection_hidden st' = false /\
  body_collapsed st' = false /\ body_expanded st' = true /\
  loader_hidden st' = true /\ analyzeBtn_disabled st' = false.
Proof.
  intros st net.
  apply (handleAnalyze_success no_host net (AnalysisResponse 65 []) st); reflexivity.
Defined.

(** The request for "example.com" fails on the network. *)
Lemma handleAnalyze_request_failure_run :
  let st := page (js "example.com") in
  let net : Network := fun _ => Throw TypeError in
  let st' := final (handleAnalyze no_host net) st in
  alerts st' = [js "Analysis failed. Please try again."] /\
  console st' = [(js "API call failed:", TypeError)] /\
  resultsSection_hidden st' = true /\
  scoreValue_textContent st' = [] /\
  progressFill_width st' = [] /\
  parametersList st' = [] /\
  body_collapsed st' = true /\
  body_expanded st' = false.
Proof.
  intros st net.
  apply (handleAnalyze_request_failure no_host net TypeError st); reflexivity.
Defined.

(** A click with "example.com" in the field, and one with "example". *)
Lemma click_sends_valid_only_run :
  let net := server 200 [] (Return (AnalysisResponse 65 [])) in
  requests (final (click_analyzeBtn no_host net) (page (js "example.com")))
  = [predict_request (js "example.com")] /\
  final (click_analyzeBtn no_host net) (page (js "example")) = page (js "example").
Proof.
  intro net. split.
  - apply (click_sends_valid_only no_host net (page (js "example.com")) eq_refl). reflexivity.
  - apply (click_sends_valid_only no_host net (page (js "example")) eq_refl). reflexivity.
Defined.


(** A first toggle stores "dark"; a popup opened later shows it. *)
Lemma loadTheme_restores_toggled_run :
  let storage := sync_storage (toggleTheme (chrome [])) in
  storage = [(js "theme", JString (js "dark"))] /\
  exists loaded,
    loadTheme no_host (chrome storage) = Return loaded /\
    data_theme loaded = Some (js "dark") /\
    themeIcon_textContent loaded = ICON_OF_DARK.
Proof.
  intro storage. split; [reflexivity |].
  apply (loadTheme_restores_toggled no_host (chrome []) (chrome storage) eq_refl).
Defined.

(** The empty string stored as theme. *)
Lemma loadTheme_default_run :
  let c := chrome [(js "theme", JString [])] in
  loadTheme no_host c
  = Return (set_themeIcon_textContent ICON_OF_LIGHT (set_data_theme (Some (js "light")) c)).
Proof.
  intro c. apply (loadTheme_default no_host c).
  intros v H. injection H as H. subst v. reflexivity.
Defined.

(** The preference stored as the string "false": the toggle shows on and
    the timer is armed. *)
Lemma toggle_matches_auto_analysis_run :
  let c := chrome [(js "autoAnalyze", JString (js "false"))] in
  let tab := {| tab_url := Some (js "https://example.com/") |} in
  exists shown,
    loadAutoAnalyzeSetting c = Return (set_autoAnalyzeToggle_checked (Some shown) c) /\
    timers (final (autoFillURL_on_load (Return [tab]) (sync_storage c)) (page []))
    = [] ++ (if shown then [auto_analyze_timer] else []).
Proof.
  intros c tab.
  apply (toggle_matches_auto_analysis c false (js "https://example.com/") [] (page []));
    reflexivity.
Defined.

(** The toggle switched off, then a fresh popup. *)
Lemma autoAnalyze_preference_off :
  let c := chrome [] in
  let fresh := chrome (sync_storage (autoAnalyzeToggle_change false c)) in
  let tab := {| tab_url := Some (js "https://example.com/") |} in
  loadAutoAnalyzeSetting fresh = Return (set_autoAnalyzeToggle_checked (Some false) fresh) /\
  timers (final (autoFillURL_on_load (Return [tab]) (sync_storage fresh)) (page [])) = [].
Proof.
  intros c fresh tab.
  apply (autoAnalyze_preference_round_trip c fresh false false false
           (js "https://example.com/") [] (page [])); reflexivity.
Defined.

(** Nothing stored. *)
Lemma first_run_defaults_run :
  loadAutoAnalyzeSetting (chrome [])
  = Return (set_autoAnalyzeToggle_checked (Some true) (chrome [])) /\
  checkAutoScanStatus (chrome []) = Return (set_statusDot_active (Some true) (chrome [])).
Proof. apply (first_run_defaults (chrome [])); reflexivity. Defined.
